(** * add_icon.py: stamping an icon on the bottom-right corner of an image

    A shallow embedding of [add_icon.py] and a verification of its
    specification.

    The script is a sequential pipeline over Pillow and [os.path]:
    open, resize, position, composite, save.  The embedding keeps that
    shape.  Python values are modelled as follows.

    - [int] is [Z].
    - [float] is IEEE 754 binary64, taken from the Standard Library's
      executable specification [SpecFloat] at precision 53 and maximal
      exponent 1024.  [a / b] on two ints is the correctly rounded
      quotient, [x * y] the correctly rounded product, [int(x)] truncates
      towards zero.
    - [str] is [string]; the functions of [posixpath] the script calls are
      transcribed from CPython's [posixpath.py] and [genericpath.py].
    - An exception is a value of [exn]; a computation that prints, reads
      or writes files and may raise is a function [world -> (exn + A) * world].
    - A Pillow image is its mode, its size and a symbolic account of its
      pixels (the library calls that produced them): no claim below
      depends on pixel values, only on which operations were applied.
      The library's checks on modes and sizes are modelled, and so are
      the bounds of the C ints it parses sizes and boxes into; running
      out of memory is not.
    - The file system is keyed by the spelling of a path: two spellings
      of one file (a link, [./a] for [a]) are two keys, and nothing below
      is meant for worlds that rely on such aliases.  The platform is
      POSIX, with a 64-bit C [long]. *)

From Stdlib Require Import ZArith Lia Bool SpecFloat Ascii String.
From stdpp Require Import gmap strings list pretty.

Local Open Scope Z_scope.

(** ** Python strings *)

Module Str.

(** [c.lower()] on one character; characters outside A-Z are kept.
    Strings are byte strings here: the only use is the comparison with
    the ASCII word [all], which no non-ASCII text lowers to. *)
Definition lower_ascii (c : ascii) : ascii :=
  let n := N_of_ascii c in
  if (65 <=? n)%N && (n <=? 90)%N then ascii_of_N (n + 32) else c.

(** [s.lower()] *)
Fixpoint lower (s : string) : string :=
  match s with
  | EmptyString => EmptyString
  | String c s' => String (lower_ascii c) (lower s')
  end.

(** [s[:n]] and [s[n:]] for [0 <= n]. *)
Fixpoint take (n : nat) (s : string) : string :=
  match n, s with
  | S n', String c s' => String c (take n' s')
  | _, _ => EmptyString
  end.

Fixpoint drop (n : nat) (s : string) : string :=
  match n, s with
  | S n', String _ s' => drop n' s'
  | _, _ => s
  end.

(** [s.startswith(p)] and [s.endswith(p)] *)
Definition startswith (s p : string) : bool := String.prefix p s.

Definition endswith (s p : string) : bool :=
  (String.length p <=? String.length s)%nat
  && String.eqb (drop (String.length s - String.length p) s) p.

(** [s.rfind(c)] for a one-character [c]: the index of its last
    occurrence, [-1] when there is none. *)
Fixpoint rfind_from (i last : Z) (s : string) (c : ascii) : Z :=
  match s with
  | EmptyString => last
  | String a s' => rfind_from (i + 1) (if Ascii.eqb a c then i else last) s' c
  end.

Definition rfind (s : string) (c : ascii) : Z := rfind_from 0 (-1) s c.

(** [s.rstrip(c)] for a one-character [c]. *)
Fixpoint rstrip (s : string) (c : ascii) : string :=
  match s with
  | EmptyString => EmptyString
  | String a s' =>
      match rstrip s' c with
      | EmptyString => if Ascii.eqb a c then EmptyString else String a EmptyString
      | r => String a r
      end
  end.

(** [s.lstrip(c)] for a one-character [c]. *)
Fixpoint lstrip (s : string) (c : ascii) : string :=
  match s with
  | EmptyString => EmptyString
  | String a s' => if Ascii.eqb a c then lstrip s' c else s
  end.

(** [s == c * len(s)] *)
Fixpoint all_eq (s : string) (c : ascii) : bool :=
  match s with
  | EmptyString => true
  | String a s' => Ascii.eqb a c && all_eq s' c
  end.

(** [c in s] *)
Fixpoint occurs (c : ascii) (s : string) : bool :=
  match s with
  | EmptyString => false
  | String a s' => Ascii.eqb a c || occurs c s'
  end.

(** [sep.join(l)] *)
Definition join (sep : string) (l : list string) : string := String.concat sep l.

(** Truthiness of a string: empty is false. *)
Definition truthy (s : string) : bool :=
  match s with EmptyString => false | _ => true end.

(** [repr(s)]: the text between apostrophes, or between double quotes
    when it has an apostrophe and no double quote; the quote in use and
    the backslash are escaped, control characters are written as
    [\t], [\n], [\r] or [\xhh].  Bytes from 128 on are kept: they are
    taken to encode printable characters. *)
Definition hex_digit (n : N) : ascii :=
  ascii_of_N (if (n <? 10)%N then 48 + n else 87 + n).

Definition repr_char (quote c : ascii) : string :=
  let n := N_of_ascii c in
  if Ascii.eqb c quote || Ascii.eqb c "\"
  then String "\" (String c EmptyString)
  else if (n =? 9)%N then "\t"
  else if (n =? 10)%N then "\n"
  else if (n =? 13)%N then "\r"
  else if (n <? 32)%N || (n =? 127)%N
  then String "\" (String "x" (String (hex_digit (n / 16))
                                 (String (hex_digit (n mod 16)) EmptyString)))
  else String c EmptyString.

Fixpoint repr_body (quote : ascii) (s : string) : string :=
  match s with
  | EmptyString => EmptyString
  | String c s' => repr_char quote c +:+ repr_body quote s'
  end.

Definition repr (s : string) : string :=
  let quote := if occurs "'" s && negb (occurs "034" s) then "034"%char
               else "'"%char in
  String quote (repr_body quote s +:+ String quote EmptyString).

End Str.

(** ** Python exceptions *)

(** The exception classes the script can meet, all subclasses of
    [Exception].  The payload is what [str(e)] prints. *)
Inductive exn :=
  | FileNotFoundError (path : string)
  | IsADirectoryError (path : string)
  | NotADirectoryError (path : string)
  | PermissionError (path : string)
  | UnidentifiedImageError (path : string)
  | DecompressionBombError (pixels : Z)
  | ZeroDivisionError
  | OverflowError (msg : string)
  | ValueError (msg : string)
  | SystemError (msg : string)
  | OSError (msg : string).

(** [str(e)]; a path is shown as its [repr]. *)
Definition exn_str (e : exn) : string :=
  match e with
  | FileNotFoundError p => "[Errno 2] No such file or directory: " +:+ Str.repr p
  | IsADirectoryError p => "[Errno 21] Is a directory: " +:+ Str.repr p
  | NotADirectoryError p => "[Errno 20] Not a directory: " +:+ Str.repr p
  | PermissionError p => "[Errno 13] Permission denied: " +:+ Str.repr p
  | UnidentifiedImageError p => "cannot identify image file " +:+ Str.repr p
  | DecompressionBombError n =>
      "Image size (" +:+ pretty n +:+ " pixels) exceeds limit of 178956970 "
      +:+ "pixels, could be decompression bomb DOS attack."
  | ZeroDivisionError => "division by zero"
  | OverflowError m => m
  | ValueError m => m
  | SystemError m => m
  | OSError m => m
  end.

(** [isinstance(e, FileNotFoundError)] *)
Definition is_FileNotFoundError (e : exn) : bool :=
  match e with FileNotFoundError _ => true | _ => false end.

(** Sequencing of pure steps that may raise. *)
Definition bind_exn {A B} (r : exn + A) (k : A -> exn + B) : exn + B :=
  match r with
  | inl e => inl e
  | inr a => k a
  end.

Notation "'let?' x ':=' c1 'in' c2" := (bind_exn c1 (fun x => c2))
  (at level 10, x pattern, c1 at level 100, c2 at level 200).

(** ** Python numbers *)

Module Py.

Definition prec : Z := 53.
Definition emax : Z := 1024.

(** A Python [float]. *)
Definition float : Type := spec_float.

(** An int as an exact operand of a division: mantissa [|n|], exponent 0. *)
Definition exact (n : Z) : spec_float :=
  match n with
  | Z0 => S754_zero false
  | Zpos p => S754_finite false p 0
  | Zneg p => S754_finite true p 0
  end.


(** [a / b] on ints (true division): [ZeroDivisionError] on a zero
    divisor, otherwise the quotient rounded once, to nearest even;
    [OverflowError] when it does not fit a float. *)
Definition truediv (a b : Z) : exn + float :=
  if b =? 0 then inl ZeroDivisionError
  else match SFdiv prec emax (exact a) (exact b) with
       | S754_infinity _ =>
           inl (OverflowError "integer division result too large for a float")
       | q => inr q
       end.

(** [x * y] on floats. *)
Definition fmul (x y : float) : float := SFmul prec emax x y.

(** [int(x)]: truncation towards zero. *)
Definition int (x : float) : exn + Z :=
  match x with
  | S754_zero _ => inr 0
  | S754_infinity _ => inl (OverflowError "cannot convert float infinity to integer")
  | S754_nan => inl (ValueError "cannot convert float NaN to integer")
  | S754_finite s m e => inr (cond_Zopp s (Z.shiftl (Zpos m) e))
  end.

(** An int parsed into a C [int] by an extension module (format [i] of
    [PyArg_ParseTuple]): the value goes through a C [long] first. *)
Definition as_c_int (n : Z) : exn + Z :=
  if (n <? - 2 ^ 63) || (2 ^ 63 <=? n)
  then inl (OverflowError "Python int too large to convert to C long")
  else if 2 ^ 31 <=? n
  then inl (OverflowError "signed integer is greater than maximum")
  else if n <? - 2 ^ 31
  then inl (OverflowError "signed integer is less than minimum")
  else inr n.

End Py.

(** ** [os.path] on POSIX *)

Module posixpath.

Definition sep : ascii := "/"%char.
Definition extsep : ascii := "."%char.

(** [os.path.split(p)]: cut after the last slash; trailing slashes of the
    head are stripped unless the head consists of slashes only. *)
Definition split (p : string) : string * string :=
  let i := Z.to_nat (Str.rfind p sep + 1) in
  let head := Str.take i p in
  let tail := Str.drop i p in
  let head :=
    if Str.truthy head && negb (Str.all_eq head sep)
    then Str.rstrip head sep else head in
  (head, tail).

(** [os.path.splitext(p)] ([genericpath._splitext]): cut at the last dot
    when it lies after the last slash and some character between that
    slash and the dot is not a dot. The source scans these characters
    in a [while] loop and returns at the first that is not a dot. *)
Definition splitext (p : string) : string * string :=
  let sepIndex := Str.rfind p sep in
  let dotIndex := Str.rfind p extsep in
  if (sepIndex <? dotIndex)
     && negb (Str.all_eq
                (Str.take (Z.to_nat (dotIndex - (sepIndex + 1)))
                          (Str.drop (Z.to_nat (sepIndex + 1)) p))
                extsep)
  then (Str.take (Z.to_nat dotIndex) p, Str.drop (Z.to_nat dotIndex) p)
  else (p, EmptyString).

(** One step of [os.path.join]'s loop. *)
Definition join2 (path b : string) : string :=
  if Str.startswith b (String sep EmptyString) then b
  else if negb (Str.truthy path) || Str.endswith path (String sep EmptyString)
       then path +:+ b
       else path +:+ String sep EmptyString +:+ b.

(** [os.path.join(a, *p)] *)
Definition join (a : string) (p : list string) : string := foldl join2 a p.

End posixpath.

(** ** Pillow images *)

Inductive mode := Mode_1 | Mode_L | Mode_P | Mode_RGB | Mode_RGBA | Mode_CMYK.

#[global] Instance mode_eq_dec : EqDecision mode.
Proof. solve_decision. Defined.

Inductive format := PNG | JPEG.

Inductive resampling := NEAREST | BILINEAR | BICUBIC | LANCZOS.

(** The pixels of an image, as the library calls that produced them. *)
Inductive pixels :=
  | Decoded (id : N)
  | Converted (m : mode) (p : pixels)
  | Resampled (f : resampling) (size : Z * Z) (p : pixels)
  | Filled (color : Z * Z * Z * Z)
  | Pasted (dst src mask : pixels) (box : Z * Z)
  | Composited (dst src : pixels).

Record image := { im_mode : mode; im_size : Z * Z; im_px : pixels }.

(** [im.width], [im.height] *)
Definition im_width (im : image) : Z := fst (im_size im).
Definition im_height (im : image) : Z := snd (im_size im).

(** A regular file: a complete encoded image that can be read, bytes no
    decoder recognises, or a file that cannot be read as an image for
    another reason, with the exception that opening and loading it
    raises ([PermissionError] without read permission, [OSError] for an
    image cut short, ...). *)
Inductive file :=
  | ImageFile (fmt : format) (im : image)
  | DataFile
  | UnreadableFile (e : exn).

Inductive os_error := ENOENT | EACCES | EISDIR | ENOTDIR.

Definition exn_of_os_error (e : os_error) (path : string) : exn :=
  match e with
  | ENOENT => FileNotFoundError path
  | EACCES => PermissionError path
  | EISDIR => IsADirectoryError path
  | ENOTDIR => NotADirectoryError path
  end.

(** ** The world: file system and standard output *)

(** [files] maps a path to the regular file there; [dirs] maps the path of
    a directory to its entries in the order [os.listdir] returns them;
    [refused] records the paths the operating system will not open for
    writing, with the error it gives (a missing parent directory, missing
    permission, a directory in the way); [stdout] is what was printed, one
    line per element. *)
Record world := {
  files : gmap string file;
  dirs : gmap string (list string);
  refused : gmap string os_error;
  stdout : list string
}.

(** A computation: it may change the world and either returns or raises. *)
Definition M (A : Type) : Type := world -> (exn + A) * world.

Definition ret {A} (a : A) : M A := fun w => (inr a, w).

Definition bind {A B} (m : M A) (k : A -> M B) : M B :=
  fun w => match m w with
           | (inl e, w') => (inl e, w')
           | (inr a, w') => k a w'
           end.

(** A pure step that may raise. *)
Definition lift {A} (r : exn + A) : M A := fun w => (r, w).

(** [try: body / except Exception as e: handler e] *)
Definition try_except {A} (body : M A) (handler : exn -> M A) : M A :=
  fun w => match body w with
           | (inl e, w') => handler e w'
           | (inr a, w') => (inr a, w')
           end.

Notation "'let*' x ':=' c1 'in' c2" := (bind c1 (fun x => c2))
  (at level 10, x pattern, c1 at level 100, c2 at level 200).
Notation "'run*' c1 'in' c2" := (bind c1 (fun _ => c2))
  (at level 10, c1 at level 100, c2 at level 200).

(** [print(line)] *)
Definition print (line : string) : M unit :=
  fun w => (inr tt, {| files := files w; dirs := dirs w;
                       refused := refused w; stdout := stdout w ++ [line] |}).

(** [os.path.isdir(p)] and [os.listdir(p)] *)
Definition isdir (p : string) : M bool :=
  fun w => (inr (bool_decide (is_Some (dirs w !! p))), w).

Definition listdir (p : string) : M (list string) :=
  fun w => match dirs w !! p with
           | Some entries => (inr entries, w)
           | None => (inl (FileNotFoundError p), w)
           end.

Module Image.

(** [Image.MAX_IMAGE_PIXELS] *)
Definition MAX_IMAGE_PIXELS : Z := 89478485.

(** The checks on the size an image file declares: a dimension below 1
    is refused by every decoder, and more than twice
    [MAX_IMAGE_PIXELS] pixels by the decompression bomb check. *)
Definition identify (path : string) (im : image) : exn + image :=
  if (im_width im <? 1) || (im_height im <? 1)
  then inl (UnidentifiedImageError path)
  else if 2 * MAX_IMAGE_PIXELS <? im_width im * im_height im
  then inl (DecompressionBombError (im_width im * im_height im))
  else inr im.

(** Whether a regular file lies on the way to [rest], at a prefix of the
    path that ends before a slash: [before] is the part already read. *)
Fixpoint file_on_the_way (fs : gmap string file) (before rest : string) : bool :=
  match rest with
  | EmptyString => false
  | String c rest' =>
      (Ascii.eqb c "/" && bool_decide (is_Some (fs !! before)))
      || file_on_the_way fs (before +:+ String c EmptyString) rest'
  end.

(** What [open(path, 'rb')] raises when no regular file is recorded at
    [path]. *)
Definition missing_error (w : world) (path : string) : exn :=
  if Str.occurs "000" path then ValueError "embedded null byte"
  else if file_on_the_way (files w) EmptyString path then NotADirectoryError path
  else if bool_decide (is_Some (dirs w !! path))
          || bool_decide (is_Some (dirs w !! Str.rstrip path "/"))
  then IsADirectoryError path
  else FileNotFoundError path.

(** [Image.open(path)]: the image decoded from the file.  Pillow reads
    the header here and the pixels at the first use of the image; the
    script uses the image at once, in the same expression, so both are
    taken together. *)
Definition open (path : string) : M image :=
  fun w => match files w !! path with
           | Some (ImageFile _ im) => (identify path im, w)
           | Some DataFile => (inl (UnidentifiedImageError path), w)
           | Some (UnreadableFile e) => (inl e, w)
           | None => (inl (missing_error w path), w)
           end.

(** [im.convert(m)]: a copy when the mode is already [m]. *)
Definition convert (im : image) (m : mode) : image :=
  if bool_decide (im_mode im = m) then im
  else {| im_mode := m; im_size := im_size im; im_px := Converted m (im_px im) |}.

(** [im.resize(size, resample)]: a copy when the size does not change;
    otherwise the size is parsed into two C ints, and both dimensions
    must be at least 1. *)
Definition resize (im : image) (size : Z * Z) (resample : resampling) : exn + image :=
  if bool_decide (im_size im = size) then inr im
  else
    let? width := Py.as_c_int (fst size) in
    let? height := Py.as_c_int (snd size) in
    if (width <? 1) || (height <? 1)
    then inl (ValueError "height and width must be > 0")
    else inr {| im_mode := im_mode im; im_size := size;
                im_px := Resampled resample size (im_px im) |}.

(** [Image.new(m, size, color)]: the size is checked, then parsed into
    two C ints. *)
Definition new (m : mode) (size : Z * Z) (color : Z * Z * Z * Z) : exn + image :=
  if (fst size <? 0) || (snd size <? 0)
  then inl (ValueError "Width and height must be >= 0")
  else
    let? width := Py.as_c_int (fst size) in
    let? height := Py.as_c_int (snd size) in
    inr {| im_mode := m; im_size := size; im_px := Filled color |}.

(** Modes usable as a paste mask. *)
Definition mask_mode (m : mode) : bool :=
  match m with Mode_1 | Mode_L | Mode_RGBA => true | _ => false end.

(** The four-element box [paste] makes of a two-element one and the size
    of the source, parsed into four C ints. *)
Definition paste_box (box size : Z * Z) : exn + Z * Z :=
  let? x0 := Py.as_c_int (fst box) in
  let? y0 := Py.as_c_int (snd box) in
  let? x1 := Py.as_c_int (fst box + fst size) in
  let? y1 := Py.as_c_int (snd box + snd size) in
  inr box.

(** [dst.paste(src, box, mask)] with a two-element [box]: [src] is
    converted to the mode of [dst] when they differ (an RGBA source on an
    RGB destination is taken as it is), the box is completed with the
    size of the source and parsed, and the part of the source that falls
    outside [dst] is clipped, wherever the box lies.  The source updates
    [dst] in place; [dst] is local to its caller and not aliased, so the
    updated image is returned instead. *)
Definition paste (dst src : image) (box : Z * Z) (mask : image) : exn + image :=
  let src' :=
    if bool_decide (im_mode dst = im_mode src) then src
    else if bool_decide (im_mode dst = Mode_RGB)
            && bool_decide (im_mode src = Mode_RGBA) then src
    else convert src (im_mode dst) in
  let? box := paste_box box (im_size src) in
  if negb (bool_decide (im_size mask = im_size src'))
  then inl (ValueError "images do not match")
  else if negb (mask_mode (im_mode mask))
  then inl (ValueError "bad transparency mask")
  else inr {| im_mode := im_mode dst; im_size := im_size dst;
              im_px := Pasted (im_px dst) (im_px src') (im_px mask) box |}.

(** [Image.alpha_composite(im1, im2)]: both RGBA, of one size. *)
Definition alpha_composite (im1 im2 : image) : exn + image :=
  if negb (bool_decide (im_mode im1 = Mode_RGBA))
  then inl (ValueError "image has wrong mode")
  else if negb (bool_decide (im_mode im2 = Mode_RGBA)
                && bool_decide (im_size im2 = im_size im1))
  then inl (ValueError "images do not match")
  else inr {| im_mode := Mode_RGBA; im_size := im_size im1;
              im_px := Composited (im_px im1) (im_px im2) |}.

(** The listings after a file was created at [path]: its name enters the
    listing of its directory, when that directory is listed and does not
    have the name yet.  The directory is the one [os.path.split] cuts
    off, the current directory when that is empty. *)
Definition add_entry (path : string) (listings : gmap string (list string))
    : gmap string (list string) :=
  let '(dir, name) := posixpath.split path in
  let dir := if Str.truthy dir then dir else "."%string in
  match listings !! dir with
  | Some entries =>
      if Str.truthy name && negb (bool_decide (name ∈ entries))
      then <[dir := entries ++ [name]]> listings
      else listings
  | None => listings
  end.

(** [im.save(path, fmt)]: the format is the one named, whatever the
    extension of [path].  The file is opened for writing first, which
    empties an existing file; then the image is encoded.  The encoder
    refuses an image without pixels: what is left then is the file cut
    short when there was one, and nothing when [save] had created it.
    The script saves RGBA images as PNG only, which the encoder accepts;
    an encoder that refuses the mode is not modelled, nor is a disk that
    fills up. *)
Definition save (im : image) (path : string) (fmt : format) : M unit :=
  fun w =>
    if negb (Str.truthy path) then (inl (FileNotFoundError path), w)
    else match refused w !! path with
         | Some e => (inl (exn_of_os_error e path), w)
         | None =>
             if (im_width im <? 1) || (im_height im <? 1)
             then (inl (SystemError "tile cannot extend outside image"),
                   {| files := match files w !! path with
                               | Some _ => <[path := DataFile]> (files w)
                               | None => files w
                               end;
                      dirs := dirs w; refused := refused w;
                      stdout := stdout w |})
             else (inr tt, {| files := <[path := ImageFile fmt im]> (files w);
                              dirs := add_entry path (dirs w);
                              refused := refused w;
                              stdout := stdout w |})
         end.

End Image.

(** ** The script *)

Definition IMAGE_HEIGHT_TO_ICON_HEIGHT_RATIO : Z := 40.
Definition IMAGE_HEIGHT_TO_PADDING_RATIO : Z := 100.

Definition _open_image (path : string) : M image :=
  run* print ("Opening image: " +:+ path) in
  let* im := Image.open path in
  ret (Image.convert im Mode_RGBA).

Definition _resize_icon (icon_image : image) (base_height : Z) : M image :=
  let* new_icon_height :=
    lift (Py.truediv base_height IMAGE_HEIGHT_TO_ICON_HEIGHT_RATIO) in
  let '(icon_width, icon_height) := im_size icon_image in
  let* aspect_ratio := lift (Py.truediv icon_width icon_height) in
  let* new_icon_width := lift (Py.int (Py.fmul new_icon_height aspect_ratio)) in
  let* shown_height := lift (Py.int new_icon_height) in
  run* print ("Resizing icon to " +:+ pretty new_icon_width +:+ "x"
              +:+ pretty shown_height) in
  let* height := lift (Py.int new_icon_height) in
  lift (Image.resize icon_image (new_icon_width, height) LANCZOS).

Definition _calculate_position (base_size icon_size : Z * Z) : exn + Z * Z :=
  let '(base_width, base_height) := base_size in
  let '(icon_width, icon_height) := icon_size in
  let? quotient := Py.truediv base_height IMAGE_HEIGHT_TO_PADDING_RATIO in
  let? padding := Py.int quotient in
  inr (base_width - icon_width - padding, base_height - icon_height - padding).

Definition _generate_output_path (base_image_path icon_name : string) : string :=
  let '(dir_name, file_name) := posixpath.split base_image_path in
  let '(name, ext) := posixpath.splitext file_name in
  let '(icon_name_part, _) := posixpath.splitext icon_name in
  posixpath.join dir_name [name +:+ "_with_icon_" +:+ icon_name_part +:+ ext].

Definition _composite_and_save (base_image icon_image : image)
    (position : Z * Z) (output_path : string) : M unit :=
  let* icon_layer := lift (Image.new Mode_RGBA (im_size base_image) (0, 0, 0, 0)) in
  let* icon_layer := lift (Image.paste icon_layer icon_image position icon_image) in
  let* final_image := lift (Image.alpha_composite base_image icon_layer) in
  run* print ("Saving result to: " +:+ output_path) in
  run* Image.save final_image output_path PNG in
  print "Done.".

(** [if not output_path: output_path = _generate_output_path(...)]:
    [None] and the empty string are both false. *)
Definition choose_output_path (output_path : option string)
    (base_image_path icon_name : string) : string :=
  match output_path with
  | Some p => if Str.truthy p then p
              else _generate_output_path base_image_path icon_name
  | None => _generate_output_path base_image_path icon_name
  end.

(** The body of the [try] block of [_add_icon_to_single_image]. *)
Definition single_image_body (base_image_path icon_name : string)
    (output_path : option string) : M (option string) :=
  let icon_path := posixpath.join "icon" ["png"; icon_name]%string in
  let* base_image := _open_image base_image_path in
  let* icon_image := _open_image icon_path in
  let* resized_icon := _resize_icon icon_image (im_height base_image) in
  let* position :=
    lift (_calculate_position (im_size base_image) (im_size resized_icon)) in
  let output_path := choose_output_path output_path base_image_path icon_name in
  run* _composite_and_save base_image resized_icon position output_path in
  ret (Some output_path).

(** Its two [except] clauses, tried in order. *)
Definition single_image_handler (e : exn) : M (option string) :=
  if is_FileNotFoundError e
  then run* print ("Error: " +:+ exn_str e +:+ ". Please check file paths.") in
       ret None
  else run* print ("An error occurred: " +:+ exn_str e) in
       ret None.

Definition _add_icon_to_single_image (base_image_path icon_name : string)
    (output_path : option string) : M (option string) :=
  try_except (single_image_body base_image_path icon_name output_path)
             single_image_handler.

(** The [for i, current_icon_name in enumerate(icons)] loop of [main],
    from index [i] on; [total] is [len(icons)]. *)
Fixpoint main_loop (base_image_path : string) (total i : nat)
    (icons : list string) : M unit :=
  match icons with
  | [] => ret tt
  | current_icon_name :: rest =>
      run* print ("Processing icon " +:+ pretty (i + 1)%nat +:+ "/"
                  +:+ pretty total +:+ ": " +:+ current_icon_name) in
      run* _add_icon_to_single_image base_image_path current_icon_name None in
      main_loop base_image_path total (S i) rest
  end.

Definition main (base_image_path icon_name : string)
    (output_path : option string) : M unit :=
  if String.eqb (Str.lower icon_name) "all" then
    let icon_dir := posixpath.join "icon" ["png"]%string in
    let* found := isdir icon_dir in
    if negb found
    then print ("Error: Icon directory not found at '" +:+ icon_dir +:+ "'")
    else
      let* entries := listdir icon_dir in
      let icons := List.filter (fun f => Str.endswith f ".png") entries in
      match icons with
      | [] => print ("No icons found in '" +:+ icon_dir +:+ "'")
      | _ =>
          run* print ("Found icons: " +:+ Str.join ", " icons) in
          main_loop base_image_path (List.length icons) 0 icons
      end
  else
    run* _add_icon_to_single_image base_image_path icon_name output_path in
    ret tt.

(** ** The sizes the specification describes *)


(** ** Shapes of paths *)

(** [stem_and_ext name ext]: the file name [name +:+ ext] has no slash,
    and [ext] is its extension: either [ext] is a dot followed by dot-free
    text and [name] has a character that is not a dot, or [ext] is empty
    and [name] has no dot after its leading dots. *)
Definition stem_and_ext (name ext : string) : bool :=
  negb (Str.occurs posixpath.sep name) && negb (Str.occurs posixpath.sep ext)
  && match ext with
     | EmptyString =>
         negb (Str.occurs posixpath.extsep (Str.lstrip name posixpath.extsep))
     | String c e =>
         Ascii.eqb c posixpath.extsep && negb (Str.occurs posixpath.extsep e)
         && negb (Str.all_eq name posixpath.extsep)
     end.

(** A directory as [os.path.split] returns it: without trailing slash,
    unless it consists of slashes only (the root); possibly empty. *)
Definition canonical_dir (dir : string) : bool :=
  negb (Str.endswith dir "/") || Str.all_eq dir posixpath.sep.

(** ** Sizes and boxes the library can take *)

Definition fits_c_int (n : Z) : bool := (- 2 ^ 31 <=? n) && (n <? 2 ^ 31).

(** A position at which [paste] can put a source of the given size: the
    corners of the box fit C ints. *)
Definition box_fits (position size : Z * Z) : bool :=
  fits_c_int (fst position) && fits_c_int (snd position)
  && fits_c_int (fst position + fst size)
  && fits_c_int (snd position + snd size).

(** ** Relating worlds *)

(** Two worlds with the same file system; what was printed may differ. *)
Definition same_fs (w1 w2 : world) : Prop :=
  files w1 = files w2 /\ dirs w1 = dirs w2 /\ refused w1 = refused w2.

(** A computation whose result and effect on the file system depend on
    the file system only, not on what was printed before. *)
Definition fs_only {A} (m : M A) : Prop :=
  forall w1 w2, same_fs w1 w2 ->
    fst (m w1) = fst (m w2) /\ same_fs (snd (m w1)) (snd (m w2)).

(** The line an [except] clause of [_add_icon_to_single_image] prints. *)
Definition error_report (e : exn) : string :=
  if is_FileNotFoundError e
  then "Error: " +:+ exn_str e +:+ ". Please check file paths."
  else "An error occurred: " +:+ exn_str e.

(** ** The pipeline without its effects *)

(** [os.path.join('icon', 'png', icon_name)], the path the pipeline reads
    the icon from. *)
Definition icon_path (icon_name : string) : string :=
  posixpath.join "icon" ["png"; icon_name]%string.

(** A world after some more lines were printed. *)
Definition printed (w : world) (lines : list string) : world :=
  {| files := files w; dirs := dirs w; refused := refused w;
     stdout := stdout w ++ lines |}.

(** What [_resize_icon] returns or raises, apart from the line it prints. *)
Definition resized_icon (icon_image : image) (base_height : Z) : exn + image :=
  let? new_icon_height :=
    Py.truediv base_height IMAGE_HEIGHT_TO_ICON_HEIGHT_RATIO in
  let? aspect_ratio := Py.truediv (im_width icon_image) (im_height icon_image) in
  let? new_icon_width := Py.int (Py.fmul new_icon_height aspect_ratio) in
  let? height := Py.int new_icon_height in
  Image.resize icon_image (new_icon_width, height) LANCZOS.

(** The image [_composite_and_save] builds before it saves it. *)
Definition composited (base_image icon_image : image) (position : Z * Z)
    : exn + image :=
  let? icon_layer := Image.new Mode_RGBA (im_size base_image) (0, 0, 0, 0) in
  let? icon_layer := Image.paste icon_layer icon_image position icon_image in
  Image.alpha_composite base_image icon_layer.

(** What [_open_image] returns for an image file found at [path], apart
    from the line it prints. *)
Definition opened (path : string) (stored : image) : exn + image :=
  let? im := Image.identify path stored in
  inr (Image.convert im Mode_RGBA).

(** The image the pipeline computes from the images stored in the two
    files.  It is used for its successes: the paths only enter the text
    of errors, and are left empty. *)
Definition rendered (stored_base stored_icon : image) : exn + image :=
  let? base_image := opened "" stored_base in
  let? icon_image := opened "" stored_icon in
  let? resized := resized_icon icon_image (im_height base_image) in
  let? position := _calculate_position (im_size base_image) (im_size resized) in
  composited base_image resized position.

(** The line [_resize_icon] prints for a resized icon. *)
Definition resize_line (resized : image) : string :=
  "Resizing icon to " +:+ pretty (im_width resized) +:+ "x"
  +:+ pretty (im_height resized).

(** Running the pipeline once for each icon name, in order, without an
    output path; the world the runs leave. *)
Definition process_each (base_image_path : string) (icons : list string)
    (w : world) : world :=
  foldl (fun w icon =>
           snd (_add_icon_to_single_image base_image_path icon None w)) w icons.

(** Calling [main] once for each icon name, in order, without an output
    path; the world the calls leave. *)
Definition main_each (base_image_path : string) (icons : list string)
    (w : world) : world :=
  foldl (fun w icon => snd (main base_image_path icon None w)) w icons.

(** ** Sample data for the examples *)

Definition empty_world : world :=
  {| files := ∅; dirs := ∅; refused := ∅; stdout := [] |}.

(** A wide icon, 100 by 10 pixels. *)
Definition wide_icon : image :=
  {| im_mode := Mode_RGBA; im_size := (100, 10); im_px := Decoded 1 |}.

(** A small RGBA base image and an icon larger than it. *)
Definition small_base : image :=
  {| im_mode := Mode_RGBA; im_size := (10, 10); im_px := Decoded 2 |}.

Definition large_icon : image :=
  {| im_mode := Mode_RGBA; im_size := (20, 20); im_px := Decoded 3 |}.

(** A photo stored as JPEG, an icon directory with a good icon, a file
    that is not an image and a file that is not an icon. *)
Definition photo : image :=
  {| im_mode := Mode_RGB; im_size := (800, 79); im_px := Decoded 0 |}.

Definition sample_world : world :=
  {| files := <["a/b.jpg" := ImageFile JPEG photo]>
                (<["icon/png/red.png" := ImageFile PNG wide_icon]>
                   (<["icon/png/bad.png" := DataFile]> ∅));
     dirs := <["icon/png" := ["bad.png"; "notes.txt"; "red.png"]%string]> ∅;
     refused := ∅;
     stdout := [] |}.

(** The sample world with one more file, an image 10 pixels high. *)
Definition tiny_world : world :=
  {| files := <["tiny.png" := ImageFile PNG small_base]> (files sample_world);
     dirs := dirs sample_world; refused := ∅; stdout := [] |}.

(** A world whose icon directory holds no icon. *)
Definition no_icon_world : world :=
  {| files := files sample_world;
     dirs := <["icon/png" := ["notes.txt"; "README.md"]%string]> ∅;
     refused := ∅; stdout := [] |}.

(** The sample world on a read-only directory [a]: the derived output
    path cannot be written; and a narrow icon, 1 by 100 pixels. *)
Definition locked_world : world :=
  {| files := files sample_world; dirs := dirs sample_world;
     refused := <["a/b_with_icon_red.jpg" := EACCES]> ∅; stdout := [] |}.

Definition narrow_icon : image :=
  {| im_mode := Mode_RGBA; im_size := (1, 100); im_px := Decoded 4 |}.

(** * Verification *)

(** ** Binary64 rounding *)

Section Rounding.

Import Py.

Lemma digits2_pos_bounds p :
  2 ^ (Zpos (digits2_pos p) - 1) <= Zpos p < 2 ^ Zpos (digits2_pos p).
Proof.
  induction p as [p IH | p IH | ]; cbn [digits2_pos].
  - rewrite Pos2Z.inj_succ.
    replace (Z.succ (Zpos (digits2_pos p)) - 1)
      with (Z.succ (Zpos (digits2_pos p) - 1)) by lia.
    rewrite !Z.pow_succ_r by lia. lia.
  - rewrite Pos2Z.inj_succ.
    replace (Z.succ (Zpos (digits2_pos p)) - 1)
      with (Z.succ (Zpos (digits2_pos p) - 1)) by lia.
    rewrite !Z.pow_succ_r by lia. lia.
  - cbn. lia.
Qed.

Lemma Zdigits2_unique m k :
  2 ^ (k - 1) <= m < 2 ^ k -> 0 < k -> Zdigits2 m = k.
Proof.
  intros [Hlo Hhi] Hk.
  assert (0 < m) by (pose proof (Z.pow_pos_nonneg 2 (k - 1)); lia).
  destruct m as [|p|p]; try lia. cbn [Zdigits2].
  pose proof (digits2_pos_bounds p) as [Hl Hh].
  set (D := Zpos (digits2_pos p)) in *.
  destruct (Z.lt_trichotomy D k) as [Hlt | [-> | Hgt]]; [exfalso | done | exfalso].
  - assert (2 ^ D <= 2 ^ (k - 1)) by (apply Z.pow_le_mono_r; lia). lia.
  - assert (2 ^ k <= 2 ^ (D - 1)) by (apply Z.pow_le_mono_r; lia). lia.
Qed.

Lemma Zdigits2_le m k : 0 <= m < 2 ^ k -> 0 <= k -> 0 <= Zdigits2 m <= k.
Proof.
  intros [Hlo Hhi] Hk. destruct m as [|p|p]; [cbn; lia | | lia]. cbn [Zdigits2].
  pose proof (digits2_pos_bounds p) as [Hl Hh].
  set (D := Zpos (digits2_pos p)) in *.
  split; [lia|]. destruct (Z.le_gt_cases D k); [done|].
  assert (2 ^ k <= 2 ^ (D - 1)) by (apply Z.pow_le_mono_r; lia). lia.
Qed.

Lemma shr_fexp_53 m e l :
  2 ^ 52 <= m < 2 ^ 53 -> emin prec emax <= e ->
  shr_fexp prec emax m e l = (shr_record_of_loc m l, e).
Proof.
  intros Hm He. unfold shr_fexp.
  rewrite (Zdigits2_unique m 53) by (done || lia).
  unfold fexp, emin, prec, emax in *.
  replace (Z.max (53 + e - 53) (3 - 1024 - 53) - e) with 0 by lia.
  reflexivity.
Qed.

Lemma shr_fexp_54 m e l :
  2 ^ 53 <= m < 2 ^ 54 -> emin prec emax <= e ->
  shr_fexp prec emax m e l = (shr_1 (shr_record_of_loc m l), e + 1).
Proof.
  intros Hm He. unfold shr_fexp.
  rewrite (Zdigits2_unique m 54) by (done || lia).
  unfold fexp, emin, prec, emax in *.
  replace (Z.max (54 + e - 53) (3 - 1024 - 53) - e) with 1 by lia.
  reflexivity.
Qed.

Lemma shr_1_m mrs : 0 <= shr_m mrs -> shr_m (shr_1 mrs) = shr_m mrs / 2.
Proof.
  destruct mrs as [m r s]. cbn [shr_m]. intros Hm.
  destruct m as [|[p|p|]|p]; cbn [shr_1 shr_m]; try lia; try reflexivity.
  - apply Z.div_unique with 1; lia.
  - apply Z.div_unique with 0; lia.
Qed.

Lemma shr_m_of_loc m l : shr_m (shr_record_of_loc m l) = m.
Proof. by destruct l as [|[]]. Qed.

Lemma round_nearest_even_cases m l :
  round_nearest_even m l = m \/ round_nearest_even m l = m + 1.
Proof. destruct l as [|[]]; cbn; try destruct (Z.even m); auto. Qed.

(** The last step of [binary_round_aux] on a mantissa that already fits:
    at most one more shift, when rounding carried into bit 54. *)
Lemma round_finish sx m2 e1 :
  2 ^ 52 <= m2 <= 2 ^ 53 -> emin prec emax <= e1 -> e1 + 1 <= emax - prec ->
  exists m e j,
    (let '(mrs, e') := shr_fexp prec emax m2 e1 loc_Exact in
     match shr_m mrs with
     | 0 => S754_zero sx
     | Zpos m => if e' <=? emax - prec then S754_finite sx m e'
                 else S754_infinity sx
     | Zneg _ => S754_nan
     end) = S754_finite sx m e
    /\ 0 <= j <= 1 /\ e = e1 + j /\ Zpos m * 2 ^ j = m2.
Proof.
  intros Hm2 He1 He1'.
  destruct (Z.eq_dec m2 (2 ^ 53)) as [-> | Hne].
  - rewrite shr_fexp_54 by lia. cbn [shr_record_of_loc shr_1 shr_m].
    change (2 ^ 53) with 9007199254740992. cbn [shr_1 shr_m].
    destruct (Z.leb_spec (e1 + 1) (emax - prec)); [|lia].
    eexists _, _, 1. split; [reflexivity|]. split; [lia|]. split; [lia|]. reflexivity.
  - rewrite shr_fexp_53 by lia. cbn [shr_record_of_loc shr_m].
    destruct m2 as [|p|p]; try lia.
    destruct (Z.leb_spec e1 (emax - prec)); [|lia].
    eexists _, _, 0. split; [reflexivity|]. split; [lia|]. split; [lia|]. lia.
Qed.

(** Rounding a mantissa of 53 or 54 bits: the result is finite, its
    mantissa is the input shifted by [k] bits, or that plus one. *)
Lemma binary_round_aux_normal sx mx ex lx :
  2 ^ 52 <= mx < 2 ^ 54 -> emin prec emax <= ex -> ex + 2 <= emax - prec ->
  exists m e k j,
    binary_round_aux prec emax sx mx ex lx = S754_finite sx m e
    /\ 0 <= k <= 1 /\ 0 <= j <= 1 /\ e = ex + k + j
    /\ (Zpos m * 2 ^ j = mx / 2 ^ k \/ Zpos m * 2 ^ j = mx / 2 ^ k + 1).
Proof.
  intros Hmx Hlo Hhi. unfold binary_round_aux.
  destruct (Z.lt_ge_cases mx (2 ^ 53)) as [Hsmall | Hbig].
  - rewrite shr_fexp_53 by lia.
    rewrite shr_m_of_loc.
    set (m2 := round_nearest_even _ _).
    assert (Hm2 : m2 = mx \/ m2 = mx + 1).
    { subst m2. destruct lx as [|[]]; cbn; try destruct (Z.even mx); auto. }
    destruct (round_finish sx m2 ex) as (m & e & j & Heq & Hj & He & Hval); try lia.
    exists m, e, 0, j. rewrite Heq. rewrite Z.pow_0_r, Z.div_1_r.
    repeat split; try lia.
  - rewrite shr_fexp_54 by lia.
    set (m2 := round_nearest_even _ _).
    assert (Hm1 : shr_m (shr_1 (shr_record_of_loc mx lx)) = mx / 2).
    { rewrite shr_1_m; rewrite shr_m_of_loc; [done | lia]. }
    assert (Hm2 : m2 = mx / 2 \/ m2 = mx / 2 + 1).
    { subst m2. rewrite Hm1. apply round_nearest_even_cases. }
    assert (2 ^ 52 <= mx / 2 < 2 ^ 53).
    { split; [apply Z.div_le_lower_bound | apply Z.div_lt_upper_bound]; lia. }
    destruct (round_finish sx m2 (ex + 1)) as (m & e & j & Heq & Hj & He & Hval);
      try lia.
    exists m, e, 1, j. rewrite Heq. rewrite Z.pow_1_r.
    repeat split; try lia.
Qed.

(** Truncating a quotient that was scaled by [2 ^ t] and is off by at most
    one unit: the integer part is the floor of the exact quotient. *)
Lemma trunc_quotient_arith n d t m2 :
  0 <= n -> 0 < d -> 0 <= t -> d < 2 ^ t ->
  m2 = n * 2 ^ t / d \/ m2 = n * 2 ^ t / d + 1 ->
  m2 / 2 ^ t = n / d.
Proof.
  intros Hn Hd Ht Hdt Hm2.
  set (P := 2 ^ t) in *.
  assert (HP : 0 < P) by (apply Z.pow_pos_nonneg; lia).
  pose proof (Z.div_mod n d ltac:(lia)) as Hnd.
  pose proof (Z.mod_pos_bound n d Hd) as Hr.
  set (Q := n / d) in *. set (r := n mod d) in *.
  assert (Hm1 : n * P / d = Q * P + r * P / d).
  { rewrite Hnd. replace ((d * Q + r) * P) with (r * P + (Q * P) * d) by ring.
    rewrite Z.div_add by lia. lia. }
  assert (Hrp : 0 <= r * P / d <= P - 2).
  { split; [apply Z.div_pos; nia|].
    apply Z.lt_succ_r. apply Z.div_lt_upper_bound; nia. }
  symmetry. apply Z.div_unique with (m2 - Q * P). 2: lia.
  left. lia.
Qed.

(** The float [n / d] for positive ints of ordinary size. *)
Lemma truediv_pos_finite n d :
  0 < n < 2 ^ 52 -> 0 < d < 2 ^ 53 ->
  exists m e j t,
    truediv n d = inr (S754_finite false m e)
    /\ 0 <= j <= 1 /\ e = j - t /\ j <= t /\ d < 2 ^ t
    /\ (Zpos m * 2 ^ j = n * 2 ^ t / d \/ Zpos m * 2 ^ j = n * 2 ^ t / d + 1)
    /\ Zpos m < 2 ^ 54.
Proof.
  intros Hn Hd. unfold truediv.
  destruct (Z.eqb_spec d 0) as [|_]; [lia|].
  destruct n as [|pn|pn]; try lia. destruct d as [|pd|pd]; try lia.
  cbn [exact SFdiv xorb].
  pose proof (digits2_pos_bounds pn) as Hdn. pose proof (digits2_pos_bounds pd) as Hdd.
  unfold SFdiv_core_binary. cbn [Zdigits2].
  set (dn := Zpos (digits2_pos pn)) in *. set (dd := Zpos (digits2_pos pd)) in *.
  assert (Hdn52 : 1 <= dn <= 52).
  { split; [lia|]. destruct (Z.le_gt_cases dn 52); [done|].
    assert (2 ^ 52 <= 2 ^ (dn - 1)) by (apply Z.pow_le_mono_r; lia). lia. }
  assert (Hdd53 : 1 <= dd <= 53).
  { split; [lia|]. destruct (Z.le_gt_cases dd 53); [done|].
    assert (2 ^ 53 <= 2 ^ (dd - 1)) by (apply Z.pow_le_mono_r; lia). lia. }
  set (s := 53 + dd - dn).
  replace (Z.min (fexp prec emax (dn + 0 - (dd + 0))) (0 - 0)) with (- s)
    by (unfold fexp, emin, prec, emax, s; lia).
  replace (0 - 0 - - s) with s by lia.
  assert (Hs : 0 < s) by (unfold s; lia).
  destruct s as [|ps|ps] eqn:Es; try lia. rewrite <- Es in *. clear Es.
  fold s.
  rewrite Z.shiftl_mul_pow2 by lia.
  pose proof (Z_div_mod (Zpos pn * 2 ^ s) (Zpos pd) ltac:(lia)) as Hdm.
  destruct (Z.div_eucl (Zpos pn * 2 ^ s) (Zpos pd)) as [q r] eqn:Eqr.
  destruct Hdm as [Hqr Hr].
  assert (Hq : q = Zpos pn * 2 ^ s / Zpos pd) by (apply Z.div_unique with r; lia).
  assert (Hpow_n : 2 ^ (dn - 1) * 2 ^ s = 2 ^ 52 * 2 ^ dd).
  { rewrite <- !Z.pow_add_r by lia. f_equal. unfold s. lia. }
  assert (Hpow_d : 2 ^ dd = 2 * 2 ^ (dd - 1)).
  { rewrite <- Z.pow_succ_r by lia. f_equal. lia. }
  assert (Hpow_n' : 2 ^ dn = 2 * 2 ^ (dn - 1)).
  { rewrite <- Z.pow_succ_r by lia. f_equal. lia. }
  assert (Hs0 : 0 < 2 ^ s) by (apply Z.pow_pos_nonneg; lia).
  assert (Hqb : 2 ^ 52 <= q < 2 ^ 54).
  { rewrite Hq. split.
    - apply Z.div_le_lower_bound; [lia|]. nia.
    - apply Z.div_lt_upper_bound; [lia|]. nia. }
  destruct (binary_round_aux_normal false q (- s) (new_location (Zpos pd) r) Hqb)
    as (m & e & k & j & Hbra & Hk & Hj & He & Hval).
  { unfold emin, prec, emax, s. lia. }
  { unfold prec, emax, s. lia. }
  rewrite Hbra. exists m, e, j, (s - k).
  split; [reflexivity|]. split; [lia|]. split; [lia|]. split; [unfold s; lia|].
  split.
  { assert (2 ^ dd <= 2 ^ (s - k)) by (apply Z.pow_le_mono_r; unfold s; lia). lia. }
  assert (Hqk : q / 2 ^ k = Zpos pn * 2 ^ (s - k) / Zpos pd).
  { rewrite Hq. assert (k = 0 \/ k = 1) as [-> | ->] by lia.
    - rewrite Z.pow_0_r, Z.div_1_r, Z.sub_0_r. done.
    - rewrite Z.pow_1_r. rewrite Z.div_div by lia.
      replace (2 ^ s) with (2 ^ (s - 1) * 2)
        by (rewrite Z.mul_comm, <- Z.pow_succ_r by lia; f_equal; lia).
      rewrite Z.mul_assoc. rewrite Z.div_mul_cancel_r by lia. done. }
  split; [rewrite <- Hqk; exact Hval|].
  assert (0 < 2 ^ j) by (apply Z.pow_pos_nonneg; lia).
  assert (0 < 2 ^ k) by (apply Z.pow_pos_nonneg; lia).
  assert (q / 2 ^ k <= q) by (apply Z.div_le_upper_bound; nia).
  nia.
Qed.

(** [int(n / d)] is the floor quotient, for [n] below [2 ^ 52]. *)
Lemma int_truediv n d :
  0 <= n < 2 ^ 52 -> 0 < d < 2 ^ 53 ->
  exists x, truediv n d = inr x /\ int x = inr (n / d).
Proof.
  intros Hn Hd.
  destruct (Z.eq_dec n 0) as [-> | Hn0].
  - unfold truediv. destruct (Z.eqb_spec d 0); [lia|].
    destruct d as [|pd|pd]; try lia. cbn. eauto.
  - destruct (truediv_pos_finite n d)
      as (m & e & j & t & Hdiv & Hj & He & Hjt & Hdt & Hval & _); [lia | lia |].
    eexists. split; [exact Hdiv|]. cbn [int cond_Zopp]. f_equal.
    rewrite Z.shiftl_div_pow2 by lia.
    rewrite <- (trunc_quotient_arith n d t (Zpos m * 2 ^ j)); try lia.
    replace (2 ^ t) with (2 ^ (- e) * 2 ^ j)
      by (rewrite <- Z.pow_add_r by lia; f_equal; lia).
    rewrite Z.div_mul_cancel_r; [done | |].
    + apply Z.pow_nonzero; lia.
    + apply Z.pow_nonzero; lia.
Qed.

(** Three quotients as CPython computes them: [1 / 3] is
    [0x3FD5555555555555], [79 / 40] is 1.975 rounded up in the last place,
    and a zero divisor raises. *)
Example truediv_examples :
  truediv 1 3 = inr (S754_finite false 6004799503160661 (-54))
  /\ truediv 79 40 = inr (S754_finite false 8894609264056730 (-52))
  /\ truediv 1 0 = inl ZeroDivisionError.
Proof. repeat split; vm_compute; reflexivity. Qed.

End Rounding.

Section RoundingShape.

Import Py.

(** Rounding keeps the sign it is given. *)
Lemma binary_round_aux_sign sx mx ex lx :
  match binary_round_aux prec emax sx mx ex lx with
  | S754_zero s | S754_infinity s | S754_finite s _ _ => s = sx
  | S754_nan => True
  end.
Proof.
  unfold binary_round_aux.
  destruct (shr_fexp prec emax mx ex lx) as [mrs1 e1].
  destruct (shr_fexp prec emax _ e1 loc_Exact) as [mrs2 e2].
  destruct (shr_m mrs2); [done | | done].
  by destruct (e2 <=? emax - prec).
Qed.

Lemma shr_1_bounds mrs :
  0 <= shr_m mrs -> 0 <= shr_m (shr_1 mrs) <= shr_m mrs.
Proof.
  intros Hm. rewrite shr_1_m by done.
  split; [apply Z.div_pos; lia | apply Z.div_le_upper_bound; lia].
Qed.

Lemma iter_shr_1_bounds p : forall mrs,
  0 <= shr_m mrs -> 0 <= shr_m (SpecFloat.iter_pos shr_1 p mrs) <= shr_m mrs.
Proof.
  induction p as [p IH | p IH | ]; intros mrs Hm; cbn [SpecFloat.iter_pos].
  - pose proof (shr_1_bounds mrs Hm) as H1.
    pose proof (IH _ (proj1 H1)) as H2.
    pose proof (IH _ (proj1 H2)) as H3. lia.
  - pose proof (IH _ Hm) as H2.
    pose proof (IH _ (proj1 H2)) as H3. lia.
  - by apply shr_1_bounds.
Qed.

Lemma shr_fexp_bounds m e l :
  0 <= m ->
  0 <= shr_m (fst (shr_fexp prec emax m e l)) <= m
  /\ snd (shr_fexp prec emax m e l) = Z.max e (fexp prec emax (Zdigits2 m + e)).
Proof.
  intros Hm. unfold shr_fexp, shr.
  destruct (fexp prec emax (Zdigits2 m + e) - e) as [|p|p] eqn:E; cbn [fst snd].
  - rewrite shr_m_of_loc. lia.
  - pose proof (iter_shr_1_bounds p (shr_record_of_loc m l)) as H.
    rewrite shr_m_of_loc in H. lia.
  - rewrite shr_m_of_loc. lia.
Qed.



(** [int(n / d)] for a negative [n] and a positive [d], when it is
    defined, is not positive. *)
Lemma int_truediv_neg n d :
  n < 0 -> 0 < d ->
  match truediv n d with
  | inl _ => True
  | inr x => x = S754_nan \/ exists h, int x = inr h /\ h <= 0
  end.
Proof.
  intros Hn Hd. unfold truediv.
  destruct (Z.eqb_spec d 0); [lia|].
  destruct n as [|pn|pn]; try lia. destruct d as [|pd|pd]; try lia.
  cbn [exact SFdiv xorb].
  destruct (SFdiv_core_binary prec emax (Zpos pn) 0 (Zpos pd) 0) as [[mz ez] lz].
  pose proof (binary_round_aux_sign true mz ez lz) as Hs.
  destruct (binary_round_aux prec emax true mz ez lz) as [s|s| |s m e]; try done.
  - right. exists 0. by cbn.
  - by left.
  - right. subst s. eexists. split; [reflexivity|]. cbn [cond_Zopp].
    pose proof (Z.shiftl_nonneg (Zpos m) e). lia.
Qed.

End RoundingShape.

(** ** The icon resizer *)

(** The value [_resize_icon] returns or raises; the world only gains the
    line it prints. *)
Lemma resize_icon_fst icon base_height w :
  fst (_resize_icon icon base_height w) =
  (let? new_icon_height :=
     Py.truediv base_height IMAGE_HEIGHT_TO_ICON_HEIGHT_RATIO in
   let? aspect_ratio := Py.truediv (im_width icon) (im_height icon) in
   let? new_icon_width := Py.int (Py.fmul new_icon_height aspect_ratio) in
   let? height := Py.int new_icon_height in
   Image.resize icon (new_icon_width, height) LANCZOS).
Proof.
  unfold _resize_icon, im_width, im_height, bind, lift, bind_exn.
  destruct (Py.truediv base_height _) as [e|nh]; [done|].
  destruct (im_size icon) as [iw ih]. cbn [fst snd].
  destruct (Py.truediv iw ih) as [e|ar]; [done|].
  destruct (Py.int (Py.fmul nh ar)) as [e|nw]; [done|].
  destruct (Py.int nh) as [e|h]; [done|].
  cbn. by destruct (Image.resize _ _ _).
Qed.

(** Parsing into a C int. *)
Lemma as_c_int_fits n : - 2 ^ 31 <= n < 2 ^ 31 -> Py.as_c_int n = inr n.
Proof.
  intros Hn. unfold Py.as_c_int.
  destruct (Z.ltb_spec n (- 2 ^ 63)); [lia|].
  destruct (Z.leb_spec (2 ^ 63) n); [lia|].
  destruct (Z.leb_spec (2 ^ 31) n); [lia|].
  destruct (Z.ltb_spec n (- 2 ^ 31)); [lia|]. done.
Qed.


Lemma as_c_int_inv n k : Py.as_c_int n = inr k -> k = n /\ - 2 ^ 31 <= n < 2 ^ 31.
Proof.
  unfold Py.as_c_int. destruct (_ || _); [done|].
  destruct (Z.leb_spec (2 ^ 31) n); [done|].
  destruct (Z.ltb_spec n (- 2 ^ 31)); [done|]. intros [= <-]. lia.
Qed.

Lemma as_c_int_error n e : Py.as_c_int n = inl e -> exists m, e = OverflowError m.
Proof.
  unfold Py.as_c_int. destruct (_ || _); [intros [= <-]; eauto|].
  destruct (_ <=? _); [intros [= <-]; eauto|].
  destruct (_ <? _); [intros [= <-]; eauto|]. done.
Qed.

(** [resize] to a size that is not the size of the image. *)
Lemma resize_other im width height f :
  im_size im <> (width, height) ->
  Image.resize im (width, height) f
  = (let? _ := Py.as_c_int width in
     let? _ := Py.as_c_int height in
     if (width <? 1) || (height <? 1)
     then inl (ValueError "height and width must be > 0")
     else inr {| im_mode := im_mode im; im_size := (width, height);
                 im_px := Resampled f (width, height) (im_px im) |}).
Proof.
  intros Hne. unfold Image.resize. rewrite bool_decide_eq_false_2 by done.
  cbn [fst snd].
  destruct (Py.as_c_int width) as [e|w'] eqn:Hw; cbn [bind_exn]; [done|].
  apply as_c_int_inv in Hw as [-> _].
  destruct (Py.as_c_int height) as [e|h'] eqn:Hh; cbn [bind_exn]; [done|].
  by apply as_c_int_inv in Hh as [-> _].
Qed.



(** A long flat icon on a high base: the new width, [2 ^ 32], does not
    fit a C int. *)
Example resize_icon_overflow :
  Py.int (Py.fmul (S754_finite false 4096 0) (S754_finite false 1048576 0))
  = inr (2 ^ 32)
  /\ exists m,
       fst (_resize_icon {| im_mode := Mode_RGBA; im_size := (1048576, 1);
                            im_px := Decoded 5 |} 163840 empty_world)
       = inl (OverflowError m).
Proof. split; [vm_compute; reflexivity|]. eexists. vm_compute. reflexivity. Qed.


Lemma truediv_error a b e :
  Py.truediv a b = inl e ->
  e = ZeroDivisionError \/ exists m, e = OverflowError m.
Proof.
  unfold Py.truediv. destruct (b =? 0); [intros [= <-]; by left|].
  destruct (SFdiv _ _ _ _); intros [= <-]. right. eauto.
Qed.

Lemma int_error x e :
  Py.int x = inl e -> (exists m, e = ValueError m) \/ exists m, e = OverflowError m.
Proof. destruct x; intros [= <-]; eauto. Qed.

(** C2.  When the icon's height is 0 or the base height is negative, the
    resizer raises and returns no image: [ZeroDivisionError] from the
    aspect ratio, Pillow's [ValueError] for a size below 1, or an error of
    the float conversions.  These are the script's errors for degenerate
    dimensions. *)
Theorem resize_icon_degenerate icon base_height w :
  0 <= im_height icon ->
  im_height icon = 0 \/ base_height < 0 ->
  exists e,
    fst (_resize_icon icon base_height w) = inl e
    /\ (e = ZeroDivisionError \/ (exists m, e = ValueError m)
        \/ exists m, e = OverflowError m).
Proof.
  intros Hnonneg Hdeg. rewrite resize_icon_fst.
  unfold IMAGE_HEIGHT_TO_ICON_HEIGHT_RATIO.
  destruct (Py.truediv base_height 40) as [e|nh] eqn:Hnh; cbn [bind_exn].
  { exists e. split; [done|]. destruct (truediv_error _ _ _ Hnh); auto. }
  destruct (Py.truediv (im_width icon) (im_height icon)) as [e|ar] eqn:Har;
    cbn [bind_exn].
  { exists e. split; [done|]. destruct (truediv_error _ _ _ Har); auto. }
  assert (Hih : im_height icon <> 0).
  { intros H0. rewrite H0 in Har. unfold Py.truediv in Har. cbn in Har. done. }
  destruct Hdeg as [? | Hneg]; [done|].
  destruct (Py.int (Py.fmul nh ar)) as [e|nw] eqn:Hnw; cbn [bind_exn].
  { exists e. split; [done|]. destruct (int_error _ _ Hnw); auto. }
  destruct (Py.int nh) as [e|h] eqn:Hh; cbn [bind_exn].
  { exists e. split; [done|]. destruct (int_error _ _ Hh); auto. }
  pose proof (int_truediv_neg base_height 40 Hneg ltac:(lia)) as Hshape.
  rewrite Hnh in Hshape.
  assert (Hle : h <= 0).
  { destruct Hshape as [-> | (h' & Hh' & Hle)]; [done|]. congruence. }
  destruct (decide (im_size icon = (nw, h))) as [Heq | Hne].
  { unfold im_height in *. rewrite Heq in *. cbn [snd] in *. lia. }
  rewrite resize_other by done.
  destruct (Py.as_c_int nw) as [e|nw'] eqn:Ew; cbn [bind_exn].
  { destruct (as_c_int_error _ _ Ew) as (m & ->). eauto 6. }
  destruct (Py.as_c_int h) as [e|h'] eqn:Eh; cbn [bind_exn].
  { destruct (as_c_int_error _ _ Eh) as (m & ->). eauto 6. }
  destruct (Z.ltb_spec h 1); [|lia]. rewrite orb_true_r.
  eexists. split; [reflexivity|]. eauto.
Qed.

Lemma resize_icon_degenerate_witness :
  (0 <= im_height wide_icon /\ (im_height wide_icon = 0 \/ -80 < 0))
  /\ exists e,
       fst (_resize_icon wide_icon (-80) empty_world) = inl e
       /\ (e = ZeroDivisionError \/ (exists m, e = ValueError m)
           \/ exists m, e = OverflowError m).
Proof.
  split; [cbn; lia|].
  apply (resize_icon_degenerate wide_icon (-80) empty_world); [cbn; lia | right; lia].
Defined.

(** ** The compositor *)

Lemma fits_c_int_spec n : fits_c_int n = true <-> - 2 ^ 31 <= n < 2 ^ 31.
Proof.
  unfold fits_c_int. rewrite andb_true_iff, Z.leb_le, Z.ltb_lt. lia.
Qed.

Lemma paste_box_fits position size :
  box_fits position size = true -> Image.paste_box position size = inr position.
Proof.
  unfold box_fits, Image.paste_box.
  intros [[[H1 H2]%andb_true_iff H3]%andb_true_iff H4]%andb_true_iff.
  apply fits_c_int_spec in H1, H2, H3, H4.
  by rewrite !as_c_int_fits by done.
Qed.

Lemma paste_box_inv position size box :
  Image.paste_box position size = inr box ->
  box = position /\ box_fits position size = true.
Proof.
  unfold Image.paste_box, box_fits.
  destruct (Py.as_c_int (fst position)) as [e|x0] eqn:H1; cbn [bind_exn]; [done|].
  destruct (Py.as_c_int (snd position)) as [e|y0] eqn:H2; cbn [bind_exn]; [done|].
  destruct (Py.as_c_int (fst position + _)) as [e|x1] eqn:H3; cbn [bind_exn]; [done|].
  destruct (Py.as_c_int (snd position + _)) as [e|y1] eqn:H4; cbn [bind_exn]; [done|].
  intros [= <-]. split; [done|].
  apply as_c_int_inv in H1 as [_ H1], H2 as [_ H2], H3 as [_ H3], H4 as [_ H4].
  by rewrite !(proj2 (fits_c_int_spec _)) by done.
Qed.

(** The source [paste] uses has the size of the source it is given. *)
Lemma paste_source_size (m : mode) (src : image) :
  im_size (if bool_decide (m = im_mode src) then src
           else if bool_decide (m = Mode_RGB)
                   && bool_decide (im_mode src = Mode_RGBA) then src
           else Image.convert src m)
  = im_size src.
Proof.
  repeat (destruct (bool_decide _); cbn [andb]; try done);
    unfold Image.convert; by destruct (bool_decide _).
Qed.

(** What the compositor needs to build its image, and what it builds. *)
Lemma composited_inv base icon position final :
  composited base icon position = inr final ->
  (0 <= im_width base < 2 ^ 31 /\ 0 <= im_height base < 2 ^ 31)
  /\ im_mode base = Mode_RGBA
  /\ Image.mask_mode (im_mode icon) = true
  /\ box_fits position (im_size icon) = true
  /\ im_size final = im_size base /\ im_mode final = Mode_RGBA.
Proof.
  unfold composited, Image.new, im_width, im_height.
  destruct (Z.ltb_spec (fst (im_size base)) 0); [done|].
  destruct (Z.ltb_spec (snd (im_size base)) 0); [done|].
  cbn [orb].
  destruct (Py.as_c_int (fst (im_size base))) as [e|bw] eqn:Hbw; cbn [bind_exn]; [done|].
  destruct (Py.as_c_int (snd (im_size base))) as [e|bh] eqn:Hbh; cbn [bind_exn]; [done|].
  apply as_c_int_inv in Hbw as [_ Hbw], Hbh as [_ Hbh].
  unfold Image.paste. cbn [im_mode im_size im_px].
  destruct (Image.paste_box position (im_size icon)) as [e|box] eqn:Hbox;
    cbn [bind_exn]; [done|].
  apply paste_box_inv in Hbox as [-> Hbox].
  destruct (negb (bool_decide _)); [done|].
  destruct (Image.mask_mode (im_mode icon)) eqn:Hmask; [|done].
  cbn [negb]. unfold Image.alpha_composite. cbn [im_mode im_size im_px].
  destruct (bool_decide_reflect (im_mode base = Mode_RGBA)); [|done].
  cbn [negb bind_exn im_mode im_size im_px].
  rewrite (bool_decide_eq_true_2 (Mode_RGBA = Mode_RGBA)) by done.
  rewrite (bool_decide_eq_true_2 (im_size base = im_size base)) by done.
  cbn [andb negb].
  intros [= <-]. cbn [im_size im_mode]. repeat split; (done || lia).
Qed.

Lemma composited_run base icon position :
  0 <= im_width base < 2 ^ 31 -> 0 <= im_height base < 2 ^ 31 ->
  im_mode base = Mode_RGBA -> Image.mask_mode (im_mode icon) = true ->
  box_fits position (im_size icon) = true ->
  exists final,
    composited base icon position = inr final
    /\ im_size final = im_size base /\ im_mode final = Mode_RGBA.
Proof.
  intros Hw Hh Hmode Hmask Hbox.
  unfold composited, Image.new, im_width, im_height in *.
  destruct (Z.ltb_spec (fst (im_size base)) 0); [lia|].
  destruct (Z.ltb_spec (snd (im_size base)) 0); [lia|].
  cbn [orb]. rewrite !as_c_int_fits by lia. cbn [bind_exn].
  unfold Image.paste. cbn [im_mode im_size im_px].
  rewrite (paste_box_fits _ _ Hbox). cbn [bind_exn].
  rewrite paste_source_size, bool_decide_eq_true_2 by done.
  rewrite Hmask. cbn [negb].
  unfold Image.alpha_composite. cbn [im_mode im_size im_px].
  rewrite Hmode. cbn [negb bind_exn im_mode im_size im_px].
  rewrite (bool_decide_eq_true_2 (Mode_RGBA = Mode_RGBA)) by done.
  rewrite (bool_decide_eq_true_2 (im_size base = im_size base)) by done.
  cbn [andb negb].
  eexists. split; [reflexivity|]. by split.
Qed.

(** The compositor in terms of the image it builds. *)
Lemma composite_and_save_cases base icon position out w :
  _composite_and_save base icon position out w
  = match composited base icon position with
    | inl e => (inl e, w)
    | inr final =>
        if Str.truthy out
        then match refused w !! out with
             | Some err => (inl (exn_of_os_error err out),
                            printed w ["Saving result to: " +:+ out])
             | None =>
                 if (im_width final <? 1) || (im_height final <? 1)
                 then (inl (SystemError "tile cannot extend outside image"),
                       {| files := match files w !! out with
                                   | Some _ => <[out := DataFile]> (files w)
                                   | None => files w
                                   end;
                          dirs := dirs w; refused := refused w;
                          stdout := stdout w ++ ["Saving result to: " +:+ out] |})
                 else (inr tt,
                       {| files := <[out := ImageFile PNG final]> (files w);
                          dirs := Image.add_entry out (dirs w);
                          refused := refused w;
                          stdout := (stdout w ++ ["Saving result to: " +:+ out])
                                    ++ ["Done."] |})
             end
        else (inl (FileNotFoundError out),
              printed w ["Saving result to: " +:+ out])
    end.
Proof.
  unfold _composite_and_save, composited, bind, lift, bind_exn.
  destruct (Image.new _ _ _) as [e|layer]; [done|].
  destruct (Image.paste _ _ _ _) as [e|layer']; [done|].
  destruct (Image.alpha_composite base layer') as [e|final]; [done|].
  unfold print at 1. cbn [fst snd]. unfold Image.save. cbn [refused files dirs stdout].
  destruct (Str.truthy out); cbn [negb]; [|done].
  destruct (refused w !! out); [done|].
  by destruct (_ || _).
Qed.

(** A full run of the compositor on an RGBA base with pixels, an icon
    usable as its own mask, a position the library can take and a path
    the system lets it write. *)
Lemma composite_and_save_run base icon position out w :
  1 <= im_width base < 2 ^ 31 -> 1 <= im_height base < 2 ^ 31 ->
  im_mode base = Mode_RGBA -> Image.mask_mode (im_mode icon) = true ->
  box_fits position (im_size icon) = true ->
  Str.truthy out = true -> refused w !! out = None ->
  exists final,
    im_size final = im_size base /\ im_mode final = Mode_RGBA
    /\ composited base icon position = inr final
    /\ _composite_and_save base icon position out w
       = (inr tt,
          {| files := <[out := ImageFile PNG final]> (files w);
             dirs := Image.add_entry out (dirs w); refused := refused w;
             stdout := (stdout w ++ ["Saving result to: " +:+ out]) ++ ["Done."] |}).
Proof.
  intros Hw Hh Hmode Hmask Hbox Hout Hfree.
  destruct (composited_run base icon position) as (final & Hfinal & Hsize & Hfmode);
    try done; try lia.
  exists final. repeat (split; [done|]).
  rewrite composite_and_save_cases, Hfinal, Hout, Hfree.
  unfold im_width, im_height in *. rewrite Hsize.
  destruct (Z.ltb_spec (fst (im_size base)) 1); [lia|].
  destruct (Z.ltb_spec (snd (im_size base)) 1); [lia|]. done.
Qed.

(** C3.  The compositor, run on a valid base image (RGBA, with pixels,
    of dimensions that fit C ints) and a valid icon (usable as its own
    paste mask, at a position the library can take), succeeds and leaves
    at the output path an image whose width and height are exactly those
    of the base image. *)
Theorem composite_output_size base icon position out w :
  1 <= im_width base < 2 ^ 31 -> 1 <= im_height base < 2 ^ 31 ->
  im_mode base = Mode_RGBA -> Image.mask_mode (im_mode icon) = true ->
  box_fits position (im_size icon) = true ->
  Str.truthy out = true -> refused w !! out = None ->
  exists final w',
    _composite_and_save base icon position out w = (inr tt, w')
    /\ files w' !! out = Some (ImageFile PNG final)
    /\ im_width final = im_width base /\ im_height final = im_height base.
Proof.
  intros Hw Hh Hmode Hmask Hbox Hout Hfree.
  destruct (composite_and_save_run base icon position out w)
    as (final & Hsize & _ & _ & Hrun); try done.
  eexists final, _. split; [exact Hrun|]. cbn [files].
  split; [apply lookup_insert_eq|].
  unfold im_width, im_height. by rewrite Hsize.
Qed.

Lemma composite_output_size_witness :
  (1 <= im_width small_base < 2 ^ 31 /\ 1 <= im_height small_base < 2 ^ 31
   /\ im_mode small_base = Mode_RGBA
   /\ Image.mask_mode (im_mode wide_icon) = true
   /\ box_fits (3, 4) (im_size wide_icon) = true
   /\ Str.truthy "out.jpg" = true /\ refused empty_world !! "out.jpg"%string = None)
  /\ exists final w',
       _composite_and_save small_base wide_icon (3, 4) "out.jpg" empty_world
       = (inr tt, w')
       /\ files w' !! "out.jpg"%string = Some (ImageFile PNG final)
       /\ im_width final = im_width small_base
       /\ im_height final = im_height small_base.
Proof.
  split; [by vm_compute|].
  apply (composite_output_size small_base wide_icon (3, 4) "out.jpg" empty_world);
    by vm_compute.
Defined.

(** ** The position calculator *)

Lemma calculate_position_value base_width base_height icon_width icon_height :
  0 <= base_height < 2 ^ 52 ->
  _calculate_position (base_width, base_height) (icon_width, icon_height)
  = inr (base_width - icon_width - base_height / 100,
         base_height - icon_height - base_height / 100).
Proof.
  intros Hb. unfold _calculate_position, IMAGE_HEIGHT_TO_PADDING_RATIO.
  destruct (int_truediv base_height 100) as (q & Hq & Hint); [lia | lia |].
  rewrite Hq. cbn [bind_exn]. by rewrite Hint.
Qed.

(** The position computed for a base image whose dimensions fit C ints
    and an icon of at most [2 ^ 30] each way is one the library can take. *)
Lemma calculated_box_fits base_width base_height icon_width icon_height :
  0 <= base_width < 2 ^ 31 -> 0 <= base_height < 2 ^ 31 ->
  0 <= icon_width <= 2 ^ 30 -> 0 <= icon_height <= 2 ^ 30 ->
  box_fits (base_width - icon_width - base_height / 100,
            base_height - icon_height - base_height / 100)
           (icon_width, icon_height) = true.
Proof.
  intros Hbw Hbh Hiw Hih.
  assert (Hp : 0 <= base_height / 100 /\ 100 * (base_height / 100) <= base_height).
  { split; [apply Z.div_pos; lia|]. apply Z.mul_div_le; lia. }
  unfold box_fits. cbn [fst snd].
  rewrite !(proj2 (fits_c_int_spec _)); [done | lia ..].
Qed.

(** C4.  For a base image of size [(base_width, base_height)] and a
    resized icon of size [(icon_width, icon_height)], the position is
    exactly [(base_width - icon_width - padding, base_height - icon_height
    - padding)] with [padding = floor(base_height / 100)]; nothing is
    clamped, so the coordinates are negative when the icon and padding
    exceed the base image, and the compositor accepts the position as it
    is and completes.  The base image is a valid RGBA image with pixels,
    of dimensions that fit C ints, as those of Pillow images do; the
    icon is below [2 ^ 30] each way, so that the corners of its box fit
    C ints too. *)
Theorem calculate_position_exact base icon out w :
  1 <= im_width base < 2 ^ 31 -> 1 <= im_height base < 2 ^ 31 ->
  0 <= im_width icon < 2 ^ 30 -> 0 <= im_height icon < 2 ^ 30 ->
  im_mode base = Mode_RGBA -> Image.mask_mode (im_mode icon) = true ->
  Str.truthy out = true -> refused w !! out = None ->
  let padding := im_height base / 100 in
  let position := (im_width base - im_width icon - padding,
                   im_height base - im_height icon - padding) in
  _calculate_position (im_size base) (im_size icon) = inr position
  /\ fst (_composite_and_save base icon position out w) = inr tt.
Proof.
  intros Hw Hh Hiw Hih Hmode Hmask Hout Hfree padding position.
  unfold position, padding, im_width, im_height in *.
  destruct (im_size base) as [bw bh] eqn:Eb, (im_size icon) as [iw ih] eqn:Ei.
  cbn [fst snd] in *. split.
  - apply calculate_position_value. lia.
  - destruct (composite_and_save_run base icon
                (bw - iw - bh / 100, bh - ih - bh / 100) out w)
      as (final & _ & _ & _ & Hrun); try done.
    + unfold im_width. by rewrite Eb.
    + unfold im_height. by rewrite Eb.
    + rewrite Ei. apply calculated_box_fits; lia.
    + by rewrite Hrun.
Qed.

(** The witness has an icon larger than the base image: the position is
    [(-10, -10)]. *)
Lemma calculate_position_exact_witness :
  (1 <= im_width small_base < 2 ^ 31 /\ 1 <= im_height small_base < 2 ^ 31
   /\ 0 <= im_width large_icon < 2 ^ 30 /\ 0 <= im_height large_icon < 2 ^ 30
   /\ im_mode small_base = Mode_RGBA
   /\ Image.mask_mode (im_mode large_icon) = true
   /\ Str.truthy "out.png" = true /\ refused empty_world !! "out.png"%string = None)
  /\ _calculate_position (im_size small_base) (im_size large_icon) = inr (-10, -10)
  /\ fst (_composite_and_save small_base large_icon (-10, -10) "out.png" empty_world)
     = inr tt.
Proof.
  split; [by vm_compute|].
  apply (calculate_position_exact small_base large_icon "out.png" empty_world);
    by vm_compute.
Defined.

(** ** Strings and paths *)

Section StrFacts.

Import Str.

Lemma app_cons a (s t : string) : String a s +:+ t = String a (s +:+ t).
Proof. reflexivity. Qed.

Lemma app_nil_l (t : string) : "" +:+ t = t.
Proof. reflexivity. Qed.

Lemma app_assoc (s t u : string) : (s +:+ t) +:+ u = s +:+ t +:+ u.
Proof.
  induction s as [|a s IH]; [done|]. rewrite !app_cons. by f_equal.
Qed.

Lemma app_nil_r (s : string) : s +:+ "" = s.
Proof. induction s as [|a s IH]; [done|]. rewrite app_cons. by f_equal. Qed.

Lemma length_app (s t : string) :
  String.length (s +:+ t) = (String.length s + String.length t)%nat.
Proof.
  induction s as [|a s IH]; [done|]. rewrite app_cons. cbn [String.length].
  by rewrite IH.
Qed.

Lemma take_app (s t : string) : take (String.length s) (s +:+ t) = s.
Proof.
  induction s as [|a s IH]; [by destruct t|].
  rewrite app_cons. cbn [String.length take]. by rewrite IH.
Qed.

Lemma drop_app (s t : string) : drop (String.length s) (s +:+ t) = t.
Proof.
  induction s as [|a s IH]; [by destruct t|].
  rewrite app_cons. by cbn [String.length drop].
Qed.

Lemma occurs_app c (s t : string) : occurs c (s +:+ t) = occurs c s || occurs c t.
Proof.
  induction s as [|a s IH]; [done|].
  rewrite app_cons. cbn [occurs]. by rewrite IH, orb_assoc.
Qed.

Lemma all_eq_app (s t : string) c : all_eq (s +:+ t) c = all_eq s c && all_eq t c.
Proof.
  induction s as [|a s IH]; [done|].
  rewrite app_cons. cbn [all_eq]. by rewrite IH, andb_assoc.
Qed.

Lemma rfind_from_none c (s : string) : forall i last,
  occurs c s = false -> rfind_from i last s c = last.
Proof.
  induction s as [|a s IH]; intros i last; cbn [occurs rfind_from]; [done|].
  intros [Ha Hs]%orb_false_elim. rewrite Ha. by apply IH.
Qed.

Lemma rfind_from_app c (s t : string) : forall i last,
  rfind_from i last (s +:+ t) c
  = rfind_from (i + Z.of_nat (String.length s)) (rfind_from i last s c) t c.
Proof.
  induction s as [|a s IH]; intros i last.
  - rewrite app_nil_l. cbn [String.length rfind_from]. by rewrite Z.add_0_r.
  - rewrite app_cons. cbn [rfind_from String.length]. rewrite IH. f_equal. lia.
Qed.

(** The last occurrence, when what follows it has none. *)
Lemma rfind_last c (s t : string) :
  occurs c t = false -> rfind (s +:+ String c t) c = Z.of_nat (String.length s).
Proof.
  intros Ht. unfold rfind. rewrite rfind_from_app. cbn [rfind_from].
  rewrite Ascii.eqb_refl. rewrite rfind_from_none by done. lia.
Qed.

Lemma rfind_none c (s : string) : occurs c s = false -> rfind s c = -1.
Proof. apply rfind_from_none. Qed.

Lemma rstrip_snoc_ne (s : string) a c :
  a <> c -> rstrip (s +:+ String a "") c = s +:+ String a "".
Proof.
  intros Hne. induction s as [|b s IH].
  - rewrite app_nil_l. cbn [rstrip]. by rewrite (proj2 (Ascii.eqb_neq a c)).
  - rewrite app_cons. cbn [rstrip]. rewrite IH. by destruct s.
Qed.

Lemma rstrip_snoc_eq (s : string) c : rstrip (s +:+ String c "") c = rstrip s c.
Proof.
  induction s as [|b s IH].
  - rewrite app_nil_l. cbn [rstrip]. by rewrite Ascii.eqb_refl.
  - rewrite app_cons. cbn [rstrip]. by rewrite IH.
Qed.

Lemma snoc_cases (s : string) : s = "" \/ exists d a, s = d +:+ String a "".
Proof.
  induction s as [|b s IH]; [by left | right].
  destruct IH as [-> | (d & a & ->)].
  - by exists "", b.
  - by exists (String b d), a.
Qed.

Lemma endswith_snoc (d : string) a c :
  endswith (d +:+ String a "") (String c "") = Ascii.eqb a c.
Proof.
  unfold endswith. rewrite length_app. cbn [String.length].
  replace (String.length d + 1 - 1)%nat with (String.length d) by lia.
  rewrite drop_app. cbn [String.eqb].
  destruct (Nat.leb_spec 1 (String.length d + 1)); [|lia].
  by destruct (Ascii.eqb a c).
Qed.

(** A string without trailing [c] is empty or ends in another character. *)
Lemma endswith_false (s : string) c :
  endswith s (String c "") = false ->
  s = "" \/ exists d a, s = d +:+ String a "" /\ a <> c.
Proof.
  intros H. destruct (snoc_cases s) as [-> | (d & a & ->)]; [by left | right].
  rewrite endswith_snoc in H. exists d, a. split; [done|]. by apply Ascii.eqb_neq.
Qed.

Lemma all_eq_nonempty_endswith (s : string) c :
  all_eq s c = true -> s <> "" -> endswith s (String c "") = true.
Proof.
  intros Hall Hne. destruct (snoc_cases s) as [-> | (d & a & ->)]; [done|].
  rewrite endswith_snoc. rewrite all_eq_app in Hall.
  apply andb_true_iff in Hall as [_ Ha]. cbn [all_eq] in Ha.
  by rewrite andb_true_r in Ha.
Qed.

Lemma startswith_no_occurrence c (s t : string) :
  occurs c s = false -> s <> "" -> startswith (s +:+ t) (String c "") = false.
Proof.
  intros Hs Hne. destruct s as [|a s]; [done|].
  rewrite app_cons. cbn [occurs] in Hs.
  apply orb_false_elim in Hs as [Ha _]. unfold startswith. cbn [String.prefix].
  destruct (Ascii.ascii_dec c a) as [-> | Hca]; [by rewrite Ascii.eqb_refl in Ha|done].
Qed.

Lemma lstrip_split (s : string) c :
  exists run, s = run +:+ lstrip s c /\ all_eq run c = true.
Proof.
  induction s as [|a s IH]; [by exists ""|]. cbn [lstrip].
  destruct (Ascii.eqb_spec a c) as [-> | Hne]; [|by exists ""].
  destruct IH as (run & Hs & Hrun). exists (String c run). split.
  - rewrite app_cons. by f_equal.
  - cbn [all_eq]. by rewrite Ascii.eqb_refl.
Qed.

Lemma lstrip_run (run s : string) c :
  all_eq run c = true -> lstrip (run +:+ s) c = lstrip s c.
Proof.
  induction run as [|a run IH]; [done|]. cbn [all_eq].
  intros [Ha Hrun]%andb_true_iff. rewrite app_cons. cbn [lstrip]. rewrite Ha. auto.
Qed.

Lemma lstrip_no_occurrence (s : string) c : occurs c s = false -> lstrip s c = s.
Proof.
  destruct s as [|a s]; [done|]. cbn [occurs lstrip].
  by intros [-> _]%orb_false_elim.
Qed.

(** A string either lacks [c] or splits at its last occurrence. *)
Lemma last_occurrence (s : string) c :
  occurs c s = false
  \/ exists a b, s = a +:+ String c b /\ occurs c b = false.
Proof.
  induction s as [|x s IH]; [by left|]. cbn [occurs].
  destruct IH as [Hnone | (a & b & -> & Hb)].
  - destruct (Ascii.eqb_spec x c) as [-> | Hne]; [right | by left].
    by exists "", s.
  - right. by exists (String x a), b.
Qed.

Lemma rstrip_shape (s : string) c :
  rstrip s c = "" \/ exists d a, rstrip s c = d +:+ String a "" /\ a <> c.
Proof.
  induction s as [|b s IH]; [by left|]. cbn [rstrip].
  destruct IH as [-> | (d & a & -> & Ha)].
  - destruct (Ascii.eqb_spec b c) as [-> | Hne]; [by left | right].
    by exists "", b.
  - right. exists (String b d), a. split; [|done]. by destruct d.
Qed.

(** [repr] as Python prints it: a path, a backslash, control characters. *)
Example repr_examples :
  repr "a/b.jpg" = "'a/b.jpg'"%string
  /\ repr "a\b" = "'a\\b'"%string
  /\ repr (String "010" (String "001" "x")) = "'\n\x01x'"%string
  /\ repr "it's" = String "034" ("it's" +:+ String "034" "").
Proof. repeat split; vm_compute; reflexivity. Qed.

End StrFacts.

Section PathFacts.

Import Str posixpath.

Lemma drop_0 (s : string) : drop 0 s = s.
Proof. by destruct s. Qed.

Lemma splitext_stem name ext :
  stem_and_ext name ext = true -> splitext (name +:+ ext) = (name, ext).
Proof.
  unfold stem_and_ext. intros [[Hn He]%andb_true_iff Hshape]%andb_true_iff.
  apply negb_true_iff in Hn, He. unfold splitext.
  destruct ext as [|c e].
  - apply negb_true_iff in Hshape. rewrite app_nil_r.
    rewrite (rfind_none sep name Hn).
    destruct (lstrip_split name extsep) as (run & Hname & Hrun).
    destruct (snoc_cases run) as [-> | (d & a & ->)].
    + rewrite app_nil_l in Hname. rewrite <- Hname in Hshape.
      by rewrite (rfind_none extsep name Hshape).
    + rewrite all_eq_app in Hrun. apply andb_true_iff in Hrun as [Hd Ha].
      cbn [all_eq] in Ha. rewrite andb_true_r in Ha. apply Ascii.eqb_eq in Ha as ->.
      rewrite app_assoc, app_cons, app_nil_l in Hname.
      assert (Hidx : rfind name extsep = Z.of_nat (String.length d))
        by (rewrite Hname at 1; by apply rfind_last).
      rewrite Hidx. replace (-1 + 1) with 0 by lia.
      rewrite Z.sub_0_r, Nat2Z.id. change (Z.to_nat 0) with 0%nat. rewrite drop_0.
      rewrite Hname at 1. rewrite take_app, Hd. by rewrite andb_false_r.
  - apply andb_true_iff in Hshape as [[Hc Hdot]%andb_true_iff Hstem].
    apply Ascii.eqb_eq in Hc as ->. apply negb_true_iff in Hdot, Hstem.
    cbn [occurs] in He. apply orb_false_elim in He as [_ He].
    rewrite (rfind_none sep) by (rewrite occurs_app; cbn [occurs]; by rewrite Hn, He).
    rewrite (rfind_last extsep name e Hdot).
    replace (-1 + 1) with 0 by lia. rewrite Z.sub_0_r, Nat2Z.id.
    change (Z.to_nat 0) with 0%nat. rewrite drop_0.
    rewrite take_app, drop_app, Hstem.
    destruct (Z.ltb_spec (-1) (Z.of_nat (String.length name))); [done | lia].
Qed.

(** Every file name is covered: what [splitext] returns for a name without
    slash is a stem and an extension in the sense of [stem_and_ext]. *)
Lemma splitext_complete file :
  occurs sep file = false ->
  file = fst (splitext file) +:+ snd (splitext file)
  /\ stem_and_ext (fst (splitext file)) (snd (splitext file)) = true.
Proof.
  intros Hfile. unfold splitext. rewrite (rfind_none sep file Hfile).
  replace (-1 + 1) with 0 by lia. change (Z.to_nat 0) with 0%nat. rewrite drop_0.
  destruct (last_occurrence file extsep) as [Hnone | (a & b & Hf & Hb)].
  - rewrite (rfind_none extsep file Hnone).
    change (-1 <? -1) with false. cbn [andb fst snd].
    rewrite app_nil_r. split; [done|]. unfold stem_and_ext.
    by rewrite Hfile, lstrip_no_occurrence, Hnone.
  - assert (Hidx : rfind file extsep = Z.of_nat (String.length a))
      by (rewrite Hf; by apply rfind_last).
    rewrite Hidx, Z.sub_0_r, Nat2Z.id.
    destruct (Z.ltb_spec (-1) (Z.of_nat (String.length a))); [|lia]. cbn [andb].
    assert (Htake : take (String.length a) file = a) by (rewrite Hf; apply take_app).
    assert (Hdrop : drop (String.length a) file = String extsep b)
      by (rewrite Hf; apply drop_app).
    rewrite Htake, Hdrop.
    assert (Hfile' : occurs sep a = false /\ occurs sep b = false).
    { rewrite Hf, occurs_app in Hfile. cbn [occurs] in Hfile.
      apply orb_false_elim in Hfile as [? [_ ?]%orb_false_elim]. done. }
    destruct Hfile' as [Ha_sep Hb_sep].
    destruct (all_eq a extsep) eqn:Hall; cbn [negb fst snd].
    + rewrite app_nil_r. split; [done|]. unfold stem_and_ext.
      rewrite Hfile. cbn [negb occurs andb].
      rewrite Hf, lstrip_run by done. cbn [lstrip]. rewrite Ascii.eqb_refl.
      rewrite lstrip_no_occurrence by done. by rewrite Hb.
    + split; [done|]. unfold stem_and_ext.
      rewrite Ha_sep. cbn [occurs]. rewrite Hb_sep, Hb, Hall.
      by rewrite Ascii.eqb_refl.
Qed.

Lemma join_canonical dir x :
  canonical_dir dir = true -> startswith x "/" = false ->
  join dir [x] = (if truthy dir && negb (all_eq dir sep) then dir +:+ "/" else dir) +:+ x.
Proof.
  intros Hdir Hx. unfold join, join2. cbn [foldl].
  change (String sep "") with "/"%string. rewrite Hx.
  unfold canonical_dir in Hdir. apply orb_true_iff in Hdir as [Hend | Hall].
  - apply negb_true_iff in Hend. rewrite Hend.
    destruct (endswith_false dir _ Hend) as [-> | (d & a & -> & Ha)]; [done|].
    assert (Hnotall : all_eq (d +:+ String a "") sep = false).
    { rewrite all_eq_app. cbn [all_eq].
      rewrite (proj2 (Ascii.eqb_neq a sep)) by done. by rewrite andb_false_r. }
    rewrite Hnotall.
    assert (Htr : truthy (d +:+ String a "") = true) by (by destruct d).
    rewrite Htr. cbn [negb orb andb]. by rewrite !app_assoc.
  - rewrite Hall. cbn [negb]. rewrite andb_false_r.
    destruct dir as [|c dir]; [done|].
    rewrite all_eq_nonempty_endswith by done. by rewrite orb_true_r.
Qed.

(** What [split] returns: a directory in canonical form and a file name
    without slash. *)
Lemma split_shape p :
  canonical_dir (fst (split p)) = true /\ occurs sep (snd (split p)) = false.
Proof.
  unfold split.
  destruct (last_occurrence p sep) as [Hnone | (a & b & Hp & Hb)].
  - rewrite (rfind_none sep p Hnone). replace (-1 + 1) with 0 by lia.
    change (Z.to_nat 0) with 0%nat. rewrite drop_0. cbn [fst snd].
    split; [by destruct p | done].
  - subst p.
    assert (Hidx : Z.to_nat (rfind (a +:+ String sep b) sep + 1)
                   = String.length (a +:+ "/")).
    { rewrite (rfind_last sep a b Hb), length_app. cbn [String.length]. lia. }
    rewrite Hidx.
    replace (a +:+ String sep b) with ((a +:+ "/") +:+ b) by (by rewrite app_assoc).
    rewrite take_app, drop_app. cbn [fst snd].
    split; [|done]. unfold canonical_dir.
    destruct (all_eq (a +:+ "/") sep) eqn:Hall.
    + rewrite andb_false_r. rewrite Hall. by rewrite orb_true_r.
    + assert (Htr : truthy (a +:+ "/") = true) by (by destruct a).
      rewrite Htr. cbn [andb negb].
      destruct (rstrip_shape (a +:+ "/") sep) as [-> | (d & x & -> & Hx)]; [done|].
      rewrite endswith_snoc.
      destruct (Ascii.eqb_spec x "/"%char) as [-> | ?]; [by destruct Hx | done].
Qed.

Lemma split_join dir file :
  canonical_dir dir = true -> occurs sep file = false ->
  split (join dir [file]) = (dir, file).
Proof.
  intros Hdir Hfile.
  assert (Hstart : startswith file "/" = false).
  { destruct file as [|c f]; [done|]. cbn [occurs] in Hfile.
    apply orb_false_elim in Hfile as [Hc _]. unfold startswith. cbn [String.prefix].
    destruct (Ascii.ascii_dec "/" c) as [<- | ?]; [by rewrite Ascii.eqb_refl in Hc|done]. }
  rewrite join_canonical by done.
  unfold canonical_dir in Hdir. unfold split.
  destruct dir as [|c0 dir0] eqn:Edir.
  - cbn [truthy andb]. rewrite app_nil_l. rewrite (rfind_none sep file Hfile).
    replace (-1 + 1) with 0 by lia. change (Z.to_nat 0) with 0%nat.
    by destruct file.
  - rewrite <- Edir in *. cbn [truthy] in *.
    assert (Htr : truthy dir = true) by (by rewrite Edir).
    rewrite Htr. cbn [andb].
    destruct (all_eq dir sep) eqn:Hall; cbn [negb].
    + destruct (snoc_cases dir) as [-> | (d & a & Hd)]; [done|].
      assert (a = sep) as ->.
      { rewrite Hd, all_eq_app in Hall. apply andb_true_iff in Hall as [_ Ha].
        cbn [all_eq] in Ha. rewrite andb_true_r in Ha. by apply Ascii.eqb_eq. }
      assert (Hidx : Z.to_nat (rfind (dir +:+ file) sep + 1) = String.length dir).
      { rewrite Hd, app_assoc, app_cons, app_nil_l, (rfind_last sep d file Hfile).
        rewrite length_app. cbn [String.length]. lia. }
      rewrite Hidx, take_app, drop_app, Htr, Hall. done.
    + rewrite orb_false_r in Hdir. apply negb_true_iff in Hdir.
      destruct (endswith_false dir _ Hdir) as [-> | (d & a & Hd & Ha)]; [done|].
      assert (Hidx : Z.to_nat (rfind ((dir +:+ "/") +:+ file) sep + 1)
                     = String.length (dir +:+ "/")).
      { rewrite app_assoc. change ("/" +:+ file) with (String sep file).
        rewrite (rfind_last sep dir file Hfile), length_app.
        cbn [String.length]. lia. }
      rewrite Hidx, take_app, drop_app.
      assert (Htr2 : truthy (dir +:+ "/") = true) by (by rewrite Edir).
      rewrite Htr2. rewrite all_eq_app, Hall. cbn [andb negb].
      change "/"%string with (String sep ""). rewrite rstrip_snoc_eq.
      rewrite Hd. by rewrite rstrip_snoc_ne.
Qed.

End PathFacts.

(** ** The output path deriver *)

(** C5.  With no explicit output path, the derived path is
    [<directory>/<base_name>_with_icon_<icon_base_name><base_extension>]:
    the directory, the name and the extension are those of the base image
    path, as [os.path.split] and [os.path.splitext] cut it; the icon
    contributes its name without its extension, and its extension is
    dropped.  The slash is that of [os.path.join]: it is written between
    a directory and the file name unless the directory is empty or is the
    root. *)
Theorem generate_output_path_derived base_path dir name ext icon_stem icon_ext :
  posixpath.split base_path = (dir, name +:+ ext) ->
  stem_and_ext name ext = true ->
  stem_and_ext icon_stem icon_ext = true ->
  let file := name +:+ "_with_icon_" +:+ icon_stem +:+ ext in
  _generate_output_path base_path (icon_stem +:+ icon_ext) = posixpath.join dir [file]
  /\ posixpath.join dir [file]
     = (if Str.truthy dir && negb (Str.all_eq dir posixpath.sep)
        then dir +:+ "/" else dir) +:+ file.
Proof.
  intros Hsplit Hbase Hicon file. split.
  - unfold _generate_output_path. rewrite Hsplit.
    rewrite splitext_stem by done. by rewrite splitext_stem by done.
  - pose proof (split_shape base_path) as [Hdir _]. rewrite Hsplit in Hdir.
    apply join_canonical; [done|].
    unfold stem_and_ext in Hbase.
    apply andb_true_iff in Hbase as [[Hn _]%andb_true_iff _].
    apply negb_true_iff in Hn. unfold file.
    destruct name as [|c name]; [done|].
    by apply startswith_no_occurrence.
Qed.

Lemma generate_output_path_derived_witness :
  (posixpath.split "a/b.jpg" = ("a", "b" +:+ ".jpg")%string
   /\ stem_and_ext "b" ".jpg" = true /\ stem_and_ext "red" ".png" = true)
  /\ _generate_output_path "a/b.jpg" "red.png" = "a/b_with_icon_red.jpg"%string.
Proof.
  split; [by repeat split|].
  destruct (generate_output_path_derived "a/b.jpg" "a" "b" ".jpg" "red" ".png")
    as [Hpath Hjoin]; [done .. |].
  exact (eq_trans Hpath Hjoin).
Defined.

(** ** Effects of the pipeline on the world *)

Lemma same_fs_refl w : same_fs w w.
Proof. by repeat split. Qed.

Lemma same_fs_sym w1 w2 : same_fs w1 w2 -> same_fs w2 w1.
Proof. intros (? & ? & ?). by repeat split. Qed.

Lemma same_fs_trans w1 w2 w3 : same_fs w1 w2 -> same_fs w2 w3 -> same_fs w1 w3.
Proof. intros (? & ? & ?) (? & ? & ?). repeat split; congruence. Qed.

Lemma print_run line w :
  print line w = (inr tt, {| files := files w; dirs := dirs w;
                             refused := refused w; stdout := stdout w ++ [line] |}).
Proof. reflexivity. Qed.

Lemma print_same_fs line w : same_fs w (snd (print line w)).
Proof. by repeat split. Qed.

Lemma convert_mode im m : im_mode (Image.convert im m) = m.
Proof. unfold Image.convert. by destruct (bool_decide_reflect (im_mode im = m)). Qed.

Lemma convert_size im m : im_size (Image.convert im m) = im_size im.
Proof. unfold Image.convert. by destruct (bool_decide _). Qed.

(** An image that was opened: RGBA, with pixels, within the limit of the
    decompression bomb check. *)
Lemma opened_inv path stored im :
  opened path stored = inr im ->
  im = Image.convert stored Mode_RGBA
  /\ im_mode im = Mode_RGBA /\ im_size im = im_size stored
  /\ 1 <= im_width stored /\ 1 <= im_height stored
  /\ im_width stored * im_height stored <= 2 * Image.MAX_IMAGE_PIXELS.
Proof.
  unfold opened, Image.identify.
  destruct (Z.ltb_spec (im_width stored) 1); [done|].
  destruct (Z.ltb_spec (im_height stored) 1); [done|]. cbn [orb].
  destruct (Z.ltb_spec (2 * Image.MAX_IMAGE_PIXELS) (im_width stored * im_height stored));
    [done|].
  cbn [bind_exn]. intros [= <-].
  split; [done|]. split; [apply convert_mode|]. split; [apply convert_size|]. lia.
Qed.

(** The dimensions of an opened image fit C ints with room to spare. *)
Lemma opened_bounds path stored im :
  opened path stored = inr im ->
  1 <= im_width im < 2 ^ 28 /\ 1 <= im_height im < 2 ^ 28.
Proof.
  intros (_ & _ & Hsize & Hw & Hh & Hpx)%opened_inv.
  unfold im_width, im_height in *. rewrite Hsize.
  unfold Image.MAX_IMAGE_PIXELS in Hpx.
  change (2 ^ 28) with 268435456. nia.
Qed.

(** Opening an image, as an equation. *)
Lemma open_image_cases path w :
  _open_image path w
  = (match files w !! path with
     | Some (ImageFile _ stored) => opened path stored
     | Some DataFile => inl (UnidentifiedImageError path)
     | Some (UnreadableFile e) => inl e
     | None => inl (Image.missing_error w path)
     end,
     printed w ["Opening image: " +:+ path]).
Proof.
  unfold _open_image, bind, Image.open, ret. rewrite print_run. cbn [files dirs].
  destruct (files w !! path) as [[fmt stored| |e]|]; try done.
  unfold opened. by destruct (Image.identify path stored).
Qed.

(** Opening an image reads the file system and prints one line. *)
Lemma open_image_run path w r w' :
  _open_image path w = (r, w') ->
  same_fs w w'
  /\ match r with
     | inr im => exists fmt stored, files w !! path = Some (ImageFile fmt stored)
                                   /\ opened path stored = inr im
     | inl _ => True
     end.
Proof.
  rewrite open_image_cases. intros [= <- <-]. split; [by repeat split|].
  destruct (files w !! path) as [[fmt stored| |e]|]; try done.
  destruct (opened path stored) eqn:Ho; [done|]. eauto.
Qed.

Lemma resize_icon_same_fs icon base_height w : same_fs w (snd (_resize_icon icon base_height w)).
Proof.
  unfold _resize_icon, bind, lift.
  destruct (Py.truediv base_height _) as [e|nh]; [apply same_fs_refl|].
  destruct (im_size icon) as [iw ih].
  destruct (Py.truediv iw ih) as [e|ar]; [apply same_fs_refl|].
  destruct (Py.int (Py.fmul nh ar)) as [e|nw]; [apply same_fs_refl|].
  destruct (Py.int nh) as [e|h]; [apply same_fs_refl|].
  rewrite print_run. cbn [snd]. by repeat split.
Qed.

(** What a run of the compositor on a base image with pixels leaves:
    nothing but printed lines when it raises; otherwise one PNG file at
    the output path, holding the image it built, of the size of the base
    image, and the name of that file in the listing of its directory. *)
Lemma composite_and_save_inv base icon position out w r w' :
  1 <= im_width base -> 1 <= im_height base ->
  _composite_and_save base icon position out w = (r, w') ->
  match r with
  | inl _ => same_fs w w'
  | inr _ => exists final,
      composited base icon position = inr final
      /\ files w' = <[out := ImageFile PNG final]> (files w)
      /\ dirs w' = Image.add_entry out (dirs w) /\ refused w' = refused w
      /\ im_size final = im_size base
  end.
Proof.
  intros Hw Hh. rewrite composite_and_save_cases.
  destruct (composited base icon position) as [e|final] eqn:Hfinal.
  - intros [= <- <-]. apply same_fs_refl.
  - pose proof (composited_inv _ _ _ _ Hfinal) as (_ & _ & _ & _ & Hsize & _).
    destruct (Str.truthy out); [|intros [= <- <-]; by repeat split].
    destruct (refused w !! out); [intros [= <- <-]; by repeat split|].
    unfold im_width, im_height in *. rewrite Hsize.
    destruct (Z.ltb_spec (fst (im_size base)) 1); [lia|].
    destruct (Z.ltb_spec (snd (im_size base)) 1); [lia|]. cbn [orb].
    intros [= <- <-]. exists final. by repeat split.
Qed.

(** What the body of the [try] block leaves. *)
Lemma single_image_body_inv base_path icon_name output_path w r w' :
  single_image_body base_path icon_name output_path w = (r, w') ->
  match r with
  | inl _ => same_fs w w'
  | inr res =>
      let out := choose_output_path output_path base_path icon_name in
      res = Some out
      /\ exists fmt stored final,
           files w !! base_path = Some (ImageFile fmt stored)
           /\ files w' = <[out := ImageFile PNG final]> (files w)
           /\ dirs w' = Image.add_entry out (dirs w) /\ refused w' = refused w
           /\ im_size final = im_size stored
  end.
Proof.
  unfold single_image_body. unfold bind at 1.
  destruct (_open_image base_path w) as [[e|base] w1] eqn:Hbase;
    apply open_image_run in Hbase as [Hfs1 Hbase].
  { by intros [= <- <-]. }
  unfold bind at 1.
  destruct (_open_image _ w1) as [[e|icon] w2] eqn:Hicon;
    apply open_image_run in Hicon as [Hfs2 _].
  { intros [= <- <-]. by eapply same_fs_trans. }
  unfold bind at 1.
  pose proof (resize_icon_same_fs icon (im_height base) w2) as Hfs3.
  destruct (_resize_icon icon (im_height base) w2) as [[e|resized] w3].
  { intros [= <- <-]. eauto using same_fs_trans. }
  cbn [snd] in Hfs3. unfold bind at 1, lift.
  destruct (_calculate_position _ _) as [e|position].
  { intros [= <- <-]. eauto using same_fs_trans. }
  unfold bind.
  destruct Hbase as (fmt & stored & Hstored & Hopened).
  pose proof (opened_bounds _ _ _ Hopened) as [Hbw Hbh].
  apply opened_inv in Hopened as (_ & _ & Hbsize & _).
  destruct (_composite_and_save base resized position _ w3) as [[e|[]] w4] eqn:Hsave;
    apply composite_and_save_inv in Hsave; try lia.
  { intros [= <- <-]. eauto using same_fs_trans. }
  unfold ret. intros [= <- <-]. split; [done|].
  destruct Hsave as (final & _ & Hfiles & Hdirs & Hrefused & Hsize).
  destruct Hfs1 as (F1 & D1 & R1), Hfs2 as (F2 & D2 & R2), Hfs3 as (F3 & D3 & R3).
  exists fmt, stored, final. repeat split; congruence.
Qed.

(** The single-image pipeline never raises: an exception of its body
    becomes the result [None] and one printed line. *)
Lemma add_icon_run base_path icon_name output_path w :
  _add_icon_to_single_image base_path icon_name output_path w
  = match single_image_body base_path icon_name output_path w with
    | (inl e, w') =>
        (inr None, {| files := files w'; dirs := dirs w'; refused := refused w';
                      stdout := stdout w' ++ [error_report e] |})
    | (inr res, w') => (inr res, w')
    end.
Proof.
  unfold _add_icon_to_single_image, try_except.
  destruct (single_image_body _ _ _ w) as [[e|res] w']; [|done].
  unfold single_image_handler, error_report.
  by destruct (is_FileNotFoundError e).
Qed.

(** ** Dependence on the file system only *)

Lemma fs_only_ret {A} (a : A) : fs_only (ret a).
Proof. intros w1 w2 H. by split. Qed.

Lemma fs_only_lift {A} (r : exn + A) : fs_only (lift r).
Proof. intros w1 w2 H. by split. Qed.

Lemma fs_only_print line : fs_only (print line).
Proof. intros w1 w2 (? & ? & ?). split; [done|]. by repeat split. Qed.

Lemma fs_only_bind {A B} (m : M A) (k : A -> M B) :
  fs_only m -> (forall a, fs_only (k a)) -> fs_only (bind m k).
Proof.
  intros Hm Hk w1 w2 H. unfold bind.
  destruct (Hm w1 w2 H) as [Hr Hw].
  destruct (m w1) as [[e1|a1] w1'], (m w2) as [[e2|a2] w2']; cbn [fst snd] in *;
    try done.
  - injection Hr as ->. by split.
  - injection Hr as ->. by apply Hk.
Qed.

Lemma fs_only_try_except {A} (m : M A) (h : exn -> M A) :
  fs_only m -> (forall e, fs_only (h e)) -> fs_only (try_except m h).
Proof.
  intros Hm Hh w1 w2 H. unfold try_except.
  destruct (Hm w1 w2 H) as [Hr Hw].
  destruct (m w1) as [[e1|a1] w1'], (m w2) as [[e2|a2] w2']; cbn [fst snd] in *;
    try done.
  injection Hr as ->. by apply Hh.
Qed.

Lemma fs_only_open path : fs_only (Image.open path).
Proof.
  intros w1 w2 (Hf & Hd & Hr). unfold Image.open, Image.missing_error.
  rewrite Hf, Hd. split; [|by destruct (files w2 !! path) as [[| |]|]].
  by destruct (files w2 !! path) as [[| |]|].
Qed.

Lemma fs_only_save im path fmt : fs_only (Image.save im path fmt).
Proof.
  intros w1 w2 (Hf & Hd & Hr). unfold Image.save. rewrite Hr, Hf, Hd.
  destruct (negb (Str.truthy path)); [split; [done | by repeat split]|].
  destruct (refused w2 !! path); [split; [done | by repeat split]|].
  destruct (_ || _); (split; [done | by repeat split]).
Qed.

Lemma fs_only_open_image path : fs_only (_open_image path).
Proof.
  unfold _open_image. apply fs_only_bind; [apply fs_only_print|]. intros _.
  apply fs_only_bind; [apply fs_only_open|]. intros im. apply fs_only_ret.
Qed.

Lemma fs_only_resize_icon icon base_height : fs_only (_resize_icon icon base_height).
Proof.
  unfold _resize_icon. apply fs_only_bind; [apply fs_only_lift|]. intros nh.
  destruct (im_size icon) as [iw ih].
  apply fs_only_bind; [apply fs_only_lift|]. intros ar.
  apply fs_only_bind; [apply fs_only_lift|]. intros nw.
  apply fs_only_bind; [apply fs_only_lift|]. intros h.
  apply fs_only_bind; [apply fs_only_print|]. intros _.
  apply fs_only_bind; [apply fs_only_lift|]. intros h'. apply fs_only_lift.
Qed.

Lemma fs_only_composite_and_save base icon position out :
  fs_only (_composite_and_save base icon position out).
Proof.
  unfold _composite_and_save.
  apply fs_only_bind; [apply fs_only_lift|]. intros layer.
  apply fs_only_bind; [apply fs_only_lift|]. intros layer'.
  apply fs_only_bind; [apply fs_only_lift|]. intros final.
  apply fs_only_bind; [apply fs_only_print|]. intros _.
  apply fs_only_bind; [apply fs_only_save|]. intros _. apply fs_only_print.
Qed.

Lemma fs_only_single_image_body base_path icon_name output_path :
  fs_only (single_image_body base_path icon_name output_path).
Proof.
  unfold single_image_body.
  apply fs_only_bind; [apply fs_only_open_image|]. intros base.
  apply fs_only_bind; [apply fs_only_open_image|]. intros icon.
  apply fs_only_bind; [apply fs_only_resize_icon|]. intros resized.
  apply fs_only_bind; [apply fs_only_lift|]. intros position.
  apply fs_only_bind; [apply fs_only_composite_and_save|]. intros _.
  apply fs_only_ret.
Qed.

Lemma fs_only_add_icon base_path icon_name output_path :
  fs_only (_add_icon_to_single_image base_path icon_name output_path).
Proof.
  unfold _add_icon_to_single_image.
  apply fs_only_try_except; [apply fs_only_single_image_body|].
  intros e. unfold single_image_handler.
  destruct (is_FileNotFoundError e);
    (apply fs_only_bind; [apply fs_only_print | intros _; apply fs_only_ret]).
Qed.

(** ** The single-image pipeline and the batch loop *)

(** One run of the pipeline either writes nothing and returns [None], or
    returns the chosen output path after writing one PNG file there, of
    the size of the base image. *)
Lemma add_icon_outcome base_path icon_name output_path w :
  exists res w',
    _add_icon_to_single_image base_path icon_name output_path w = (inr res, w')
    /\ dirs w' = match res with
                 | None => dirs w
                 | Some p => Image.add_entry p (dirs w)
                 end
    /\ refused w' = refused w
    /\ match res with
       | None => files w' = files w
       | Some p =>
           p = choose_output_path output_path base_path icon_name
           /\ exists fmt stored final,
                files w !! base_path = Some (ImageFile fmt stored)
                /\ files w' = <[p := ImageFile PNG final]> (files w)
                /\ im_size final = im_size stored
       end.
Proof.
  rewrite add_icon_run.
  destruct (single_image_body base_path icon_name output_path w) as [[e|res] w1] eqn:Hbody;
    apply single_image_body_inv in Hbody.
  - destruct Hbody as (Hf & Hd & Hr). eexists None, _. by repeat split.
  - destruct Hbody as (-> & fmt & stored & final & Hstored & Hf & Hd & Hr & Hsize).
    eexists (Some _), w1. repeat split; try done. by exists fmt, stored, final.
Qed.

Lemma main_loop_returns base_path icons : forall total i w,
  fst (main_loop base_path total i icons w) = inr tt.
Proof.
  induction icons as [|icon icons IH]; intros total i w; [done|].
  cbn [main_loop]. unfold bind at 1. rewrite print_run. unfold bind.
  destruct (add_icon_outcome base_path icon None
              {| files := files w; dirs := dirs w; refused := refused w;
                 stdout := stdout w ++ ["Processing icon " +:+ pretty (i + 1)%nat +:+ "/"
                   +:+ pretty total +:+ ": " +:+ icon] |})
    as (res & w' & -> & _). apply IH.
Qed.

Lemma main_loop_app base_path before after : forall total i w,
  main_loop base_path total i (before ++ after) w
  = main_loop base_path total (i + List.length before) after
      (snd (main_loop base_path total i before w)).
Proof.
  induction before as [|icon before IH]; intros total i w.
  - cbn. by rewrite Nat.add_0_r.
  - cbn [app main_loop List.length]. unfold bind at 1 3. rewrite print_run.
    unfold bind.
    destruct (_add_icon_to_single_image base_path icon None _) as [[e|res] w'] eqn:Hrun.
    + pose proof (add_icon_outcome base_path icon None
        {| files := files w; dirs := dirs w; refused := refused w;
           stdout := stdout w ++ ["Processing icon " +:+ pretty (i + 1)%nat +:+ "/"
             +:+ pretty total +:+ ": " +:+ icon] |}) as (res & w'' & Hrun' & _).
      rewrite Hrun in Hrun'. done.
    + rewrite IH.
      replace (S i + List.length before)%nat with (i + S (List.length before))%nat by lia.
      reflexivity.
Qed.

(** The files a batch leaves depend on the file system it starts from and
    on the icons, not on the numbering it prints. *)
Lemma main_loop_same_fs base_path icons : forall total i total' i' w1 w2,
  same_fs w1 w2 ->
  same_fs (snd (main_loop base_path total i icons w1))
          (snd (main_loop base_path total' i' icons w2)).
Proof.
  induction icons as [|icon icons IH]; intros total i total' i' w1 w2 Hfs; [done|].
  cbn [main_loop]. unfold bind at 1 3. rewrite !print_run. unfold bind.
  set (w1p := {| files := files w1; stdout := _ |}).
  set (w2p := {| files := files w2; stdout := _ |}).
  assert (Hp : same_fs w1p w2p) by (destruct Hfs as (? & ? & ?); by repeat split).
  destruct (fs_only_add_icon base_path icon None w1p w2p Hp) as [Hr Hw].
  destruct (_add_icon_to_single_image base_path icon None w1p) as [[e1|r1] w1'],
           (_add_icon_to_single_image base_path icon None w2p) as [[e2|r2] w2'];
    cbn [fst snd] in *; try done.
  by apply IH.
Qed.

(** A batch writes only at derived output paths of its icons. *)
Lemma main_loop_files base_path icons : forall total i w path,
  files (snd (main_loop base_path total i icons w)) !! path <> files w !! path ->
  exists icon, icon ∈ icons /\ path = _generate_output_path base_path icon.
Proof.
  induction icons as [|icon icons IH]; intros total i w path; [done|].
  cbn [main_loop]. unfold bind at 1. rewrite print_run. unfold bind.
  set (wp := {| files := files w; stdout := _ |}).
  destruct (add_icon_outcome base_path icon None wp) as (res & w' & -> & _ & _ & Hres).
  intros Hchanged.
  assert (Hrest : files w' !! path = files w !! path ->
            exists icon', icon' ∈ icon :: icons
                          /\ path = _generate_output_path base_path icon').
  { intros Hsame. destruct (IH total (S i) w' path) as (icon' & Hin & ->); [congruence|].
    exists icon'. split; [by right | done]. }
  destruct res as [p|]; [|by apply Hrest; rewrite Hres].
  destruct Hres as (-> & fmt & stored & final & _ & Hf & _).
  destruct (decide (choose_output_path None base_path icon = path)) as [<- | Hne].
  - exists icon. split; [by left | done].
  - apply Hrest. rewrite Hf. cbn [files wp]. by rewrite lookup_insert_ne.
Qed.

(** [main] never raises. *)
Lemma main_returns base_path icon_name output_path w :
  fst (main base_path icon_name output_path w) = inr tt.
Proof.
  unfold main. destruct (String.eqb _ _).
  - unfold bind, isdir, listdir.
    destruct (dirs w !! posixpath.join "icon" ["png"%string]) as [entries|] eqn:Hd.
    + rewrite bool_decide_eq_true_2 by eauto. cbn [negb]. rewrite Hd.
      destruct (List.filter _ entries) as [|icon icons]; [done|].
      rewrite print_run. apply main_loop_returns.
    + rewrite bool_decide_eq_false_2 by (by intros [? ?]). done.
  - unfold bind.
    by destruct (add_icon_outcome base_path icon_name output_path w)
      as (res & w' & -> & _).
Qed.

(** C6.  An exception raised anywhere in the processing of one image is
    caught by [_add_icon_to_single_image]: the call returns [None], prints
    one line reporting the error and writes no file; neither it nor [main]
    ever raises.  In a batch, an icon whose processing fails changes
    nothing for the others: the loop runs to its end, and the files it
    leaves are those it leaves when the failing icon is not in the
    directory at all. *)
Theorem per_image_errors_are_contained base_path before failing after total i w e :
  fst (single_image_body base_path failing None
         (snd (main_loop base_path total i before w))) = inl e ->
  (forall name out w0 e0,
     fst (single_image_body base_path name out w0) = inl e0 ->
     exists w1,
       _add_icon_to_single_image base_path name out w0 = (inr None, w1)
       /\ same_fs w0 w1 /\ last (stdout w1) = Some (error_report e0))
  /\ (forall name out w0,
        (exists res w1, _add_icon_to_single_image base_path name out w0 = (inr res, w1))
        /\ fst (main base_path name out w0) = inr tt)
  /\ fst (main_loop base_path total i (before ++ failing :: after) w) = inr tt
  /\ forall total' i',
       same_fs (snd (main_loop base_path total i (before ++ failing :: after) w))
               (snd (main_loop base_path total' i' (before ++ after) w)).
Proof.
  intros Hfail. split; [|split; [|split]].
  - intros name out w0 e0 Hbody. rewrite add_icon_run.
    destruct (single_image_body base_path name out w0) as [[e'|res] w'] eqn:Hrun;
      [|done]. cbn [fst] in Hbody. injection Hbody as ->.
    apply single_image_body_inv in Hrun as (Hf & Hd & Hr).
    eexists. split; [reflexivity|]. split; [by repeat split|].
    cbn [stdout]. apply last_snoc.
  - intros name out w0. split; [|apply main_returns].
    destruct (add_icon_outcome base_path name out w0) as (res & w1 & Hrun & _).
    eauto.
  - apply main_loop_returns.
  - intros total' i'. rewrite !main_loop_app.
    set (w1 := snd (main_loop base_path total i before w)) in *.
    assert (Hbefore : same_fs w1 (snd (main_loop base_path total' i' before w))).
    { apply main_loop_same_fs, same_fs_refl. }
    cbn [main_loop]. unfold bind at 1. rewrite print_run. unfold bind.
    set (w1p := {| files := files w1; stdout := _ |}).
    assert (Hp : same_fs w1 w1p) by (by repeat split).
    destruct (fs_only_single_image_body base_path failing None w1 w1p Hp) as [Hres _].
    rewrite Hfail in Hres. rewrite add_icon_run.
    destruct (single_image_body base_path failing None w1p) as [[e'|res] w2] eqn:Hrun;
      [|done].
    apply single_image_body_inv in Hrun.
    apply main_loop_same_fs.
    apply same_fs_trans with w1; [|done].
    apply same_fs_sym. apply same_fs_trans with w1p; [done|].
    apply same_fs_trans with w2; [done|]. by repeat split.
Qed.

(** In the sample directory the first icon is not an image; the second is
    processed all the same. *)
Lemma per_image_errors_are_contained_witness :
  fst (single_image_body "a/b.jpg" "bad.png" None
         (snd (main_loop "a/b.jpg" 2 0 [] sample_world)))
  = inl (UnidentifiedImageError "icon/png/bad.png")
  /\ fst (main_loop "a/b.jpg" 2 0 (["bad.png"; "red.png"])%string sample_world) = inr tt
  /\ same_fs (snd (main_loop "a/b.jpg" 2 0 (["bad.png"; "red.png"])%string sample_world))
             (snd (main_loop "a/b.jpg" 1 0 (["red.png"])%string sample_world))
  /\ is_Some (files (snd (main_loop "a/b.jpg" 2 0 (["bad.png"; "red.png"])%string
                           sample_world)) !! "a/b_with_icon_red.jpg"%string).
Proof.
  assert (H : fst (single_image_body "a/b.jpg" "bad.png" None
                     (snd (main_loop "a/b.jpg" 2 0 [] sample_world)))
              = inl (UnidentifiedImageError "icon/png/bad.png"))
    by (vm_compute; reflexivity).
  split; [exact H|].
  destruct (per_image_errors_are_contained "a/b.jpg" [] "bad.png" ["red.png"%string]
              2%nat 0%nat sample_world _ H) as (_ & _ & Hret & Hiso).
  split; [exact Hret|]. split; [exact (Hiso 1%nat 0%nat)|].
  vm_compute. eauto.
Defined.

(** ** Output format *)

(** C7.  Whenever the pipeline succeeds, the file it leaves at the output
    path is a PNG file, whatever the format of the base image file and
    whatever the output path is called. *)
Theorem output_is_always_png base_path icon_name output_path w p w' :
  _add_icon_to_single_image base_path icon_name output_path w = (inr (Some p), w') ->
  exists base_format stored final,
    files w !! base_path = Some (ImageFile base_format stored)
    /\ files w' !! p = Some (ImageFile PNG final).
Proof.
  intros Hrun.
  destruct (add_icon_outcome base_path icon_name output_path w)
    as (res & w1 & Hrun' & _ & _ & Hres).
  rewrite Hrun in Hrun'. injection Hrun' as <- <-.
  destruct Hres as (-> & fmt & stored & final & Hstored & Hf & _).
  exists fmt, stored, final. split; [done|]. rewrite Hf. apply lookup_insert_eq.
Qed.

(** A JPEG photo, an output path ending in [.jpg]: the file is PNG. *)
Lemma output_is_always_png_witness :
  _add_icon_to_single_image "a/b.jpg" "red.png" (Some "out.jpg"%string) sample_world
  = (inr (Some "out.jpg"%string),
     snd (_add_icon_to_single_image "a/b.jpg" "red.png" (Some "out.jpg"%string)
            sample_world))
  /\ files sample_world !! "a/b.jpg"%string = Some (ImageFile JPEG photo)
  /\ exists base_format stored final,
       files sample_world !! "a/b.jpg"%string = Some (ImageFile base_format stored)
       /\ files (snd (_add_icon_to_single_image "a/b.jpg" "red.png"
                        (Some "out.jpg"%string) sample_world)) !! "out.jpg"%string
          = Some (ImageFile PNG final).
Proof.
  assert (H : _add_icon_to_single_image "a/b.jpg" "red.png" (Some "out.jpg"%string)
                sample_world
              = (inr (Some "out.jpg"%string),
                 snd (_add_icon_to_single_image "a/b.jpg" "red.png"
                        (Some "out.jpg"%string) sample_world)))
    by (vm_compute; reflexivity).
  split; [exact H|]. split; [vm_compute; reflexivity|].
  exact (output_is_always_png _ _ _ _ _ _ H).
Defined.

(** ** The driver *)

(** One turn of the batch loop. *)
Lemma main_loop_cons base_path total i icon icons w :
  main_loop base_path total i (icon :: icons) w
  = main_loop base_path total (S i) icons
      (snd (_add_icon_to_single_image base_path icon None
              (printed w ["Processing icon " +:+ pretty (i + 1)%nat +:+ "/"
                          +:+ pretty total +:+ ": " +:+ icon]))).
Proof.
  cbn [main_loop]. unfold bind at 1. rewrite print_run. unfold bind, printed.
  by destruct (add_icon_outcome base_path icon None
                 {| files := files w; dirs := dirs w; refused := refused w;
                    stdout := stdout w ++ ["Processing icon " +:+ pretty (i + 1)%nat
                      +:+ "/" +:+ pretty total +:+ ": " +:+ icon] |})
    as (res & w1 & -> & _).
Qed.

(** The batch loop leaves the file system as running the pipeline for
    each icon in turn leaves it. *)
Lemma main_loop_process_each base_path icons : forall total i w1 w2,
  same_fs w1 w2 ->
  same_fs (snd (main_loop base_path total i icons w1))
          (process_each base_path icons w2).
Proof.
  induction icons as [|icon icons IH]; intros total i w1 w2 Hfs; [done|].
  rewrite main_loop_cons. unfold process_each. cbn [foldl].
  apply IH. apply fs_only_add_icon.
  destruct Hfs as (? & ? & ?). by repeat split.
Qed.

(** C8.  In [all] mode, when the icon directory does not exist, [main]
    prints [Error: Icon directory not found at 'icon/png']; when it
    exists and holds no entry ending in [.png], [main] prints
    [No icons found in 'icon/png'].  In both cases that line is all it
    does: no file is written, no listing changes, and it returns
    normally. *)
Theorem all_mode_without_icons base_path icon_name output_path w :
  Str.lower icon_name = "all"%string ->
  (dirs w !! "icon/png"%string = None ->
   main base_path icon_name output_path w
   = (inr tt, printed w ["Error: Icon directory not found at 'icon/png'"%string]))
  /\ (forall entries,
        dirs w !! "icon/png"%string = Some entries ->
        List.filter (fun f => Str.endswith f ".png") entries = [] ->
        main base_path icon_name output_path w
        = (inr tt, printed w ["No icons found in 'icon/png'"%string])).
Proof.
  intros Hall. unfold main. rewrite Hall. cbn [String.eqb Ascii.eqb Bool.eqb].
  change (posixpath.join "icon" ["png"%string]) with "icon/png"%string.
  unfold bind, isdir, listdir. split.
  - intros Hnone. rewrite Hnone. rewrite bool_decide_eq_false_2 by (by intros [? ?]).
    cbn [negb]. by rewrite print_run.
  - intros entries Hsome Hempty. rewrite Hsome.
    rewrite bool_decide_eq_true_2 by eauto. cbn [negb].
    by rewrite Hsome, Hempty, print_run.
Qed.

(** Without an icon directory, and with a directory that holds a text
    file and a README only. *)
Lemma all_mode_without_icons_witness :
  Str.lower "ALL" = "all"%string
  /\ main "a/b.jpg" "ALL" None empty_world
     = (inr tt,
        printed empty_world ["Error: Icon directory not found at 'icon/png'"%string])
  /\ main "a/b.jpg" "ALL" None no_icon_world
     = (inr tt, printed no_icon_world ["No icons found in 'icon/png'"%string]).
Proof.
  split; [reflexivity|].
  split.
  - apply (all_mode_without_icons "a/b.jpg" "ALL" None empty_world eq_refl).
    reflexivity.
  - apply (proj2 (all_mode_without_icons "a/b.jpg" "ALL" None no_icon_world eq_refl)
             ["notes.txt"; "README.md"]%string); reflexivity.
Defined.

(** C9.  When the icon argument lowers to [all], the explicit output path
    plays no part: [main] does exactly what it does without one.  Every
    entry of the icon directory that ends in [.png] is processed, in the
    order of the listing, by the pipeline run without an output path:
    [main] leaves the file system as those runs, one after the other,
    leave it.  Such a run, when it succeeds, writes to the derived output
    path of its icon and returns it; and every file the batch writes lies
    at the derived output path of one of these entries. *)
Theorem all_mode_ignores_output_path base_path icon_name output_path w :
  Str.lower icon_name = "all"%string ->
  main base_path icon_name output_path w = main base_path icon_name None w
  /\ (forall entries,
        dirs w !! "icon/png"%string = Some entries ->
        same_fs (snd (main base_path icon_name output_path w))
                (process_each base_path
                   (List.filter (fun f => Str.endswith f ".png") entries) w))
  /\ (forall icon w0 p w1,
        _add_icon_to_single_image base_path icon None w0 = (inr (Some p), w1) ->
        p = _generate_output_path base_path icon
        /\ exists final, files w1 !! p = Some (ImageFile PNG final))
  /\ forall path,
       files (snd (main base_path icon_name output_path w)) !! path <> files w !! path ->
       exists entries icon,
         dirs w !! "icon/png"%string = Some entries
         /\ icon ∈ entries /\ Str.endswith icon ".png" = true
         /\ path = _generate_output_path base_path icon.
Proof.
  intros Hall. split; [|split; [|split]].
  - unfold main. by rewrite Hall.
  - intros entries Hd. unfold main. rewrite Hall. cbn [String.eqb Ascii.eqb Bool.eqb].
    change (posixpath.join "icon" ["png"%string]) with "icon/png"%string.
    unfold bind, isdir, listdir. rewrite Hd.
    rewrite bool_decide_eq_true_2 by eauto. cbn [negb]. rewrite Hd.
    destruct (List.filter _ entries) as [|icon0 icons] eqn:Hfilter.
    + rewrite print_run. by repeat split.
    + rewrite print_run. apply main_loop_process_each. by repeat split.
  - intros icon w0 p w1 Hrun.
    destruct (add_icon_outcome base_path icon None w0)
      as (res & w2 & Hrun' & _ & _ & Hres).
    rewrite Hrun in Hrun'. injection Hrun' as <- <-.
    destruct Hres as (-> & fmt & stored & final & _ & Hf & _).
    split; [done|]. exists final. rewrite Hf. apply lookup_insert_eq.
  - intros path. unfold main. rewrite Hall. cbn [String.eqb Ascii.eqb Bool.eqb].
    change (posixpath.join "icon" ["png"%string]) with "icon/png"%string.
    unfold bind, isdir, listdir.
    destruct (dirs w !! "icon/png"%string) as [entries|] eqn:Hd.
    + rewrite bool_decide_eq_true_2 by eauto. cbn [negb]. rewrite Hd.
      destruct (List.filter _ entries) as [|icon0 icons] eqn:Hfilter.
      { rewrite print_run. by cbn. }
      rewrite print_run. intros Hchanged.
      destruct (main_loop_files _ _ _ _ _ _ Hchanged) as (icon & Hin & ->).
      rewrite <- Hfilter in Hin. apply list_elem_of_In, filter_In in Hin as [Hin Hpng].
      exists entries, icon. repeat split; [by apply list_elem_of_In | done].
    + rewrite bool_decide_eq_false_2 by (by intros [? ?]).
      cbn [negb]. rewrite print_run. by cbn.
Qed.

(** In the sample directory, [bad.png] is not an image and [red.png] is:
    the batch with an output path leaves the files that the two runs
    leave, the one for [red.png] at its derived path, and nothing at the
    path it was given. *)
Lemma all_mode_ignores_output_path_witness :
  Str.lower "All" = "all"%string
  /\ main "a/b.jpg" "All" (Some "elsewhere.png"%string) sample_world
     = main "a/b.jpg" "All" None sample_world
  /\ files (snd (main "a/b.jpg" "All" (Some "elsewhere.png"%string) sample_world))
     = files (snd (_add_icon_to_single_image "a/b.jpg" "red.png" None
                     (snd (_add_icon_to_single_image "a/b.jpg" "bad.png" None
                             sample_world))))
  /\ files (snd (main "a/b.jpg" "All" (Some "elsewhere.png"%string) sample_world))
       !! "elsewhere.png"%string = None
  /\ is_Some (files (snd (main "a/b.jpg" "All" (Some "elsewhere.png"%string)
                           sample_world)) !! "a/b_with_icon_red.jpg"%string).
Proof.
  split; [reflexivity|].
  destruct (all_mode_ignores_output_path "a/b.jpg" "All"
              (Some "elsewhere.png"%string) sample_world eq_refl)
    as (Hsame & Heach & _ & _).
  split; [exact Hsame|].
  split; [exact (proj1 (Heach ["bad.png"; "notes.txt"; "red.png"]%string eq_refl))|].
  split; [vm_compute; reflexivity | vm_compute; eauto].
Defined.

(** C10.  An empty string given as the explicit output path counts as no
    output path: the pipeline does exactly what it does for [None], so a
    successful run writes to the derived path and returns it.  A
    non-empty string overrides the derivation. *)
Theorem empty_output_path_is_derived base_path icon_name w :
  _add_icon_to_single_image base_path icon_name (Some ""%string) w
  = _add_icon_to_single_image base_path icon_name None w
  /\ (forall p w',
        _add_icon_to_single_image base_path icon_name (Some ""%string) w
        = (inr (Some p), w') ->
        p = _generate_output_path base_path icon_name
        /\ exists final, files w' !! p = Some (ImageFile PNG final))
  /\ (forall explicit p w',
        explicit <> ""%string ->
        _add_icon_to_single_image base_path icon_name (Some explicit) w
        = (inr (Some p), w') ->
        p = explicit
        /\ exists final, files w' !! explicit = Some (ImageFile PNG final)).
Proof.
  split; [reflexivity|]. split.
  - intros p w' Hrun.
    destruct (add_icon_outcome base_path icon_name (Some ""%string) w)
      as (res & w1 & Hrun' & _ & _ & Hres).
    rewrite Hrun in Hrun'. injection Hrun' as <- <-.
    destruct Hres as (-> & fmt & stored & final & _ & Hf & _).
    split; [done|]. exists final. rewrite Hf. apply lookup_insert_eq.
  - intros explicit p w' Hne Hrun.
    destruct (add_icon_outcome base_path icon_name (Some explicit) w)
      as (res & w1 & Hrun' & _ & _ & Hres).
    rewrite Hrun in Hrun'. injection Hrun' as <- <-.
    destruct Hres as (-> & fmt & stored & final & _ & Hf & _).
    assert (Hp : choose_output_path (Some explicit) base_path icon_name = explicit).
    { unfold choose_output_path. by destruct explicit. }
    rewrite Hp in *. split; [done|]. exists final. rewrite Hf. apply lookup_insert_eq.
Qed.

Lemma empty_output_path_is_derived_witness :
  _add_icon_to_single_image "a/b.jpg" "red.png" (Some ""%string) sample_world
  = _add_icon_to_single_image "a/b.jpg" "red.png" None sample_world
  /\ fst (_add_icon_to_single_image "a/b.jpg" "red.png" (Some ""%string) sample_world)
     = inr (Some "a/b_with_icon_red.jpg"%string).
Proof.
  split.
  - exact (proj1 (empty_output_path_is_derived "a/b.jpg" "red.png" sample_world)).
  - vm_compute. reflexivity.
Defined.

(** * Further properties of the script *)

(** ** Lower bounds through rounding *)

Section RoundingLower.

Import Py.

Lemma iter_shr_1_m p : forall mrs,
  0 <= shr_m mrs ->
  shr_m (SpecFloat.iter_pos shr_1 p mrs) = shr_m mrs / 2 ^ Zpos p.
Proof.
  induction p as [p IH | p IH | ]; intros mrs Hm; cbn [SpecFloat.iter_pos].
  - pose proof (shr_1_bounds mrs Hm) as H1.
    pose proof (iter_shr_1_bounds p _ (proj1 H1)) as H2.
    rewrite IH by lia. rewrite IH by lia. rewrite shr_1_m by done.
    rewrite !Z.div_div by (try apply Z.pow_pos_nonneg; lia).
    f_equal. replace (Zpos p~1) with (1 + Zpos p + Zpos p) by lia.
    rewrite !Z.pow_add_r by lia. lia.
  - pose proof (iter_shr_1_bounds p _ Hm) as H2.
    rewrite IH by lia. rewrite IH by lia.
    rewrite !Z.div_div by (try apply Z.pow_pos_nonneg; lia).
    f_equal. replace (Zpos p~0) with (Zpos p + Zpos p) by lia.
    rewrite !Z.pow_add_r by lia. lia.
  - rewrite shr_1_m by done. done.
Qed.





End RoundingLower.

(** ** The steps of the pipeline as equations *)

Lemma resize_size icon size f resized :
  Image.resize icon size f = inr resized -> im_size resized = size.
Proof.
  unfold Image.resize.
  destruct (bool_decide_reflect (im_size icon = size)); [by intros [= <-]|].
  destruct (Py.as_c_int (fst size)) as [e|w']; cbn [bind_exn]; [done|].
  destruct (Py.as_c_int (snd size)) as [e|h']; cbn [bind_exn]; [done|].
  destruct (_ || _); [done|]. by intros [= <-].
Qed.

Lemma resize_icon_cases icon base_height w :
  fst (_resize_icon icon base_height w) = resized_icon icon base_height
  /\ same_fs w (snd (_resize_icon icon base_height w))
  /\ forall resized,
       resized_icon icon base_height = inr resized ->
       snd (_resize_icon icon base_height w) = printed w [resize_line resized].
Proof.
  split; [apply resize_icon_fst|]. split; [apply resize_icon_same_fs|].
  intros resized. unfold resized_icon, _resize_icon, im_width, im_height, bind, lift,
    bind_exn, resize_line.
  destruct (Py.truediv base_height _) as [e|nh]; [done|].
  destruct (im_size icon) as [iw ih]. cbn [fst snd].
  destruct (Py.truediv iw ih) as [e|ar]; [done|].
  destruct (Py.int (Py.fmul nh ar)) as [e|nw]; [done|].
  destruct (Py.int nh) as [e|h]; [done|].
  rewrite print_run. cbn [fst snd]. intros Hres.
  apply resize_size in Hres. unfold im_width, im_height. by rewrite Hres.
Qed.

(** The path enters [opened] through the text of errors only. *)
Lemma opened_path path path' stored im :
  opened path stored = inr im -> opened path' stored = inr im.
Proof.
  unfold opened, Image.identify.
  destruct (_ || _); [done|]. by destruct (_ <? _).
Qed.

Lemma truthy_app_cons (s : string) c t : Str.truthy (s +:+ String c t) = true.
Proof. by destruct s. Qed.

Lemma generate_output_path_truthy base_path icon_name :
  Str.truthy (_generate_output_path base_path icon_name) = true.
Proof.
  unfold _generate_output_path.
  destruct (posixpath.split base_path) as [dir file].
  destruct (posixpath.splitext file) as [name ext].
  destruct (posixpath.splitext icon_name) as [stem iext].
  unfold posixpath.join, posixpath.join2. cbn [foldl].
  change ("_with_icon_" +:+ stem +:+ ext)
    with (String "_" ("with_icon_" +:+ stem +:+ ext)).
  set (file' := name +:+ String "_" _).
  assert (Hfile : Str.truthy file' = true) by apply truthy_app_cons.
  destruct (Str.startswith file' _); [done|].
  destruct (_ || _).
  - destruct dir; [done | done].
  - by destruct dir.
Qed.

(** The body of the pipeline when every step succeeds: the result, the
    file written, its entry in the listing of its directory and the five
    lines printed. *)
Lemma single_image_body_run base_path icon_name output_path w
    base_format stored_base icon_format stored_icon base icon resized position final :
  let out := choose_output_path output_path base_path icon_name in
  files w !! base_path = Some (ImageFile base_format stored_base) ->
  files w !! icon_path icon_name = Some (ImageFile icon_format stored_icon) ->
  opened base_path stored_base = inr base ->
  opened (icon_path icon_name) stored_icon = inr icon ->
  resized_icon icon (im_height base) = inr resized ->
  _calculate_position (im_size base) (im_size resized) = inr position ->
  composited base resized position = inr final ->
  refused w !! out = None ->
  single_image_body base_path icon_name output_path w
  = (inr (Some out),
     {| files := <[out := ImageFile PNG final]> (files w);
        dirs := Image.add_entry out (dirs w); refused := refused w;
        stdout := stdout w ++ ["Opening image: " +:+ base_path;
                               "Opening image: " +:+ icon_path icon_name;
                               resize_line resized;
                               "Saving result to: " +:+ out; "Done."] |}).
Proof.
  intros out Hbase Hicon Hob Hoi Hres Hpos Hfinal Hfree.
  assert (Hout : Str.truthy out = true).
  { unfold out, choose_output_path. destruct output_path as [p|].
    - destruct (Str.truthy p) eqn:Hp; [done | apply generate_output_path_truthy].
    - apply generate_output_path_truthy. }
  pose proof (opened_bounds _ _ _ Hob) as [Hbw Hbh].
  pose proof (composited_inv _ _ _ _ Hfinal) as (_ & _ & _ & _ & Hsize & _).
  unfold single_image_body. fold (icon_path icon_name).
  unfold bind at 1. rewrite open_image_cases, Hbase, Hob.
  unfold bind at 1. rewrite open_image_cases. cbn [printed files]. rewrite Hicon, Hoi.
  unfold bind at 1.
  destruct (resize_icon_cases icon (im_height base)
              (printed (printed w ["Opening image: " +:+ base_path])
                       ["Opening image: " +:+ icon_path icon_name]))
    as (Hfst & _ & Hsnd).
  rewrite (surjective_pairing (_resize_icon icon (im_height base) _)).
  rewrite Hfst, (Hsnd resized Hres), Hres.
  unfold bind at 1, lift. rewrite Hpos.
  unfold bind. fold out. rewrite composite_and_save_cases, Hfinal, Hout.
  cbn [printed refused files dirs stdout]. rewrite Hfree.
  unfold im_width, im_height in *. rewrite Hsize.
  destruct (Z.ltb_spec (fst (im_size base)) 1); [lia|].
  destruct (Z.ltb_spec (snd (im_size base)) 1); [lia|]. cbn [orb].
  unfold ret. f_equal. f_equal. by rewrite <- !List.app_assoc.
Qed.

(** Conversely, a body that returns went through every step. *)
Lemma single_image_body_returns base_path icon_name output_path w res w' :
  single_image_body base_path icon_name output_path w = (inr res, w') ->
  let out := choose_output_path output_path base_path icon_name in
  exists base_format stored_base icon_format stored_icon final,
    files w !! base_path = Some (ImageFile base_format stored_base)
    /\ files w !! icon_path icon_name = Some (ImageFile icon_format stored_icon)
    /\ rendered stored_base stored_icon = inr final
    /\ refused w !! out = None
    /\ res = Some out
    /\ files w' = <[out := ImageFile PNG final]> (files w)
    /\ dirs w' = Image.add_entry out (dirs w) /\ refused w' = refused w.
Proof.
  intros Hrun out. revert Hrun.
  unfold single_image_body. fold (icon_path icon_name).
  unfold bind at 1. rewrite open_image_cases.
  destruct (files w !! base_path) as [[fb sb| |eb]|] eqn:Hbase; try done.
  destruct (opened base_path sb) as [e|base] eqn:Hob; [done|].
  unfold bind at 1. rewrite open_image_cases. cbn [printed files].
  destruct (files w !! icon_path icon_name) as [[fi si| |ei]|] eqn:Hicon; try done.
  destruct (opened (icon_path icon_name) si) as [e|icon] eqn:Hoi; [done|].
  unfold bind at 1.
  destruct (resize_icon_cases icon (im_height base)
              (printed (printed w ["Opening image: " +:+ base_path])
                       ["Opening image: " +:+ icon_path icon_name]))
    as (Hfst & _ & Hsnd).
  rewrite (surjective_pairing (_resize_icon icon (im_height base) _)), Hfst.
  destruct (resized_icon icon (im_height base)) as [e|resized] eqn:Hres; [done|].
  rewrite (Hsnd resized eq_refl).
  unfold bind at 1, lift.
  destruct (_calculate_position _ _) as [e|position] eqn:Hpos; [done|].
  unfold bind. fold out. rewrite composite_and_save_cases.
  destruct (composited base resized position) as [e|final] eqn:Hfinal; [done|].
  destruct (Str.truthy out) eqn:Hout; [|done].
  cbn [printed refused files dirs stdout].
  destruct (refused w !! out) eqn:Hfree; [done|].
  destruct (_ || _); [done|].
  unfold ret. intros [= <- <-].
  exists fb, sb, fi, si, final. repeat split; try done.
  unfold rendered. rewrite (opened_path _ "" _ _ Hob), (opened_path _ "" _ _ Hoi).
  cbn [bind_exn]. rewrite Hres. cbn [bind_exn]. rewrite Hpos. cbn [bind_exn]. done.
Qed.

(** The body run on two image files that render: it succeeds and writes
    the rendered image. *)
Lemma single_image_body_rendered base_path icon_name output_path w
    base_format stored_base icon_format stored_icon final :
  let out := choose_output_path output_path base_path icon_name in
  files w !! base_path = Some (ImageFile base_format stored_base) ->
  files w !! icon_path icon_name = Some (ImageFile icon_format stored_icon) ->
  rendered stored_base stored_icon = inr final ->
  refused w !! out = None ->
  exists resized,
    single_image_body base_path icon_name output_path w
    = (inr (Some out),
       {| files := <[out := ImageFile PNG final]> (files w);
          dirs := Image.add_entry out (dirs w); refused := refused w;
          stdout := stdout w ++ ["Opening image: " +:+ base_path;
                                 "Opening image: " +:+ icon_path icon_name;
                                 resize_line resized;
                                 "Saving result to: " +:+ out; "Done."] |}).
Proof.
  intros out Hbase Hicon Hrender Hfree. unfold rendered in Hrender.
  destruct (opened "" stored_base) as [e|base] eqn:Hob; [done|].
  cbn [bind_exn] in Hrender.
  destruct (opened "" stored_icon) as [e|icon] eqn:Hoi; [done|].
  cbn [bind_exn] in Hrender.
  destruct (resized_icon _ _) as [e|resized] eqn:Hres; [done|]. cbn [bind_exn] in Hrender.
  destruct (_calculate_position _ _) as [e|position] eqn:Hpos; [done|].
  cbn [bind_exn] in Hrender.
  exists resized.
  exact (single_image_body_run base_path icon_name output_path w
           base_format stored_base icon_format stored_icon base icon resized
           position final Hbase Hicon
           (opened_path _ _ _ _ Hob) (opened_path _ _ _ _ Hoi)
           Hres Hpos Hrender Hfree).
Qed.

(** ** Upper bounds through rounding *)

Section RoundingUpper.

Import Py.

Lemma shr_fexp_m m e l :
  0 <= m ->
  0 <= snd (shr_fexp prec emax m e l) - e
  /\ shr_m (fst (shr_fexp prec emax m e l))
     = m / 2 ^ (snd (shr_fexp prec emax m e l) - e).
Proof.
  intros Hm. unfold shr_fexp, shr.
  destruct (fexp prec emax (Zdigits2 m + e) - e) as [|p|p] eqn:E; cbn [fst snd].
  - rewrite shr_m_of_loc. replace (e - e) with 0 by lia. rewrite Z.div_1_r. lia.
  - rewrite iter_shr_1_m by (rewrite shr_m_of_loc; lia). rewrite shr_m_of_loc.
    replace (e + Zpos p - e) with (Zpos p) by lia. lia.
  - rewrite shr_m_of_loc. replace (e - e) with 0 by lia. rewrite Z.div_1_r. lia.
Qed.

(** A mantissa whose value is below one half, cut to 53 bits, is at most
    one half less one unit in its last place. *)
Lemma shr_fexp_small m e l :
  0 <= m -> e <= -1 -> m < 2 ^ (- e - 1) ->
  let m' := shr_m (fst (shr_fexp prec emax m e l)) in
  let e' := snd (shr_fexp prec emax m e l) in
  e' <= -1 /\ 0 <= m' /\ m' < 2 ^ (- e' - 1).
Proof.
  intros Hm He Hlt m' e'. subst m' e'.
  pose proof (shr_fexp_bounds m e l Hm) as [Hb Hsnd].
  pose proof (shr_fexp_m m e l Hm) as [Hk Hval].
  pose proof (Zdigits2_le m (- e - 1) ltac:(lia) ltac:(lia)) as Hd.
  set (e' := snd (shr_fexp prec emax m e l)) in *.
  assert (He' : e' <= -1) by (unfold fexp, emin, prec, emax in Hsnd; lia).
  split; [done|]. split; [lia|]. rewrite Hval.
  apply Z.div_lt_upper_bound; [apply Z.pow_pos_nonneg; lia|].
  rewrite <- Z.pow_add_r by lia.
  by replace (e' - e + (- e' - 1)) with (- e - 1) by lia.
Qed.

(** Rounding a value below one half gives a float below one. *)
Lemma binary_round_aux_small mx ex lx :
  0 <= mx -> ex <= -1 -> mx < 2 ^ (- ex - 1) ->
  binary_round_aux prec emax false mx ex lx = S754_zero false
  \/ exists m e,
       binary_round_aux prec emax false mx ex lx = S754_finite false m e
       /\ Z.shiftl (Zpos m) e = 0.
Proof.
  intros Hmx Hex Hlt. unfold binary_round_aux.
  pose proof (shr_fexp_small mx ex lx Hmx Hex Hlt) as (He1 & Hm1 & Hlt1).
  destruct (shr_fexp prec emax mx ex lx) as [mrs1 e1]. cbn [fst snd] in *.
  set (m2 := round_nearest_even _ _).
  assert (Hm2 : 0 <= m2 <= shr_m mrs1 + 1).
  { subst m2. destruct (round_nearest_even_cases (shr_m mrs1) (loc_of_shr_record mrs1));
      lia. }
  assert (Hpow : 2 ^ (- e1) = 2 * 2 ^ (- e1 - 1)).
  { rewrite <- Z.pow_succ_r by lia. f_equal. lia. }
  assert (P : 0 < 2 ^ (- e1 - 1)) by (apply Z.pow_pos_nonneg; lia).
  destruct (Z.eq_dec m2 (2 ^ (- e1 - 1))) as [Heq | Hne].
  - (* the value rounded up to one half exactly *)
    pose proof (shr_fexp_bounds m2 e1 loc_Exact ltac:(lia)) as [Hb Hsnd].
    pose proof (shr_fexp_m m2 e1 loc_Exact ltac:(lia)) as [Hk Hval].
    pose proof (Zdigits2_le m2 (- e1) ltac:(lia) ltac:(lia)) as Hd.
    destruct (shr_fexp prec emax m2 e1 loc_Exact) as [mrs2 e2]. cbn [fst snd] in *.
    assert (He2 : e2 <= -1) by (unfold fexp, emin, prec, emax in Hsnd; lia).
    destruct (shr_m mrs2) as [|m|m] eqn:Em; [by left | right | lia].
    destruct (Z.leb_spec e2 (emax - prec)); [|unfold prec, emax in *; lia].
    exists m, e2. split; [done|].
    rewrite Z.shiftl_div_pow2 by lia. apply Z.div_small. split; [lia|].
    rewrite Hval. apply Z.div_lt_upper_bound; [apply Z.pow_pos_nonneg; lia|].
    rewrite <- Z.pow_add_r by lia.
    replace (e2 - e1 + - e2) with (- e1) by lia. lia.
  - pose proof (shr_fexp_small m2 e1 loc_Exact ltac:(lia) He1 ltac:(lia))
      as (He2 & Hm3 & Hlt3).
    destruct (shr_fexp prec emax m2 e1 loc_Exact) as [mrs2 e2]. cbn [fst snd] in *.
    destruct (shr_m mrs2) as [|m|m] eqn:Em; [by left | right | lia].
    destruct (Z.leb_spec e2 (emax - prec)); [|unfold prec, emax in *; lia].
    exists m, e2. split; [done|].
    rewrite Z.shiftl_div_pow2 by lia. apply Z.div_small. split; [lia|].
    assert (2 ^ (- e2) = 2 * 2 ^ (- e2 - 1))
      by (rewrite <- Z.pow_succ_r by lia; f_equal; lia).
    lia.
Qed.

(** The product of two positive floats whose exact product is below one
    half truncates to 0. *)
Lemma int_fmul_small m1 e1 m2 e2 :
  e1 <= 0 -> e2 <= 0 ->
  2 * (Zpos m1 * Zpos m2) < 2 ^ (- e1) * 2 ^ (- e2) ->
  int (fmul (S754_finite false m1 e1) (S754_finite false m2 e2)) = inr 0.
Proof.
  intros He1 He2 Hlt. unfold fmul. cbn [SFmul xorb].
  rewrite <- Z.pow_add_r in Hlt by lia.
  assert (He : e1 + e2 <= -1).
  { destruct (Z.le_gt_cases (e1 + e2) (-1)); [done|].
    replace (- e1 + - e2) with 0 in Hlt by lia. cbn in Hlt. lia. }
  assert (Hpow : 2 ^ (- e1 + - e2) = 2 * 2 ^ (- (e1 + e2) - 1)).
  { rewrite <- Z.pow_succ_r by lia. f_equal. lia. }
  destruct (binary_round_aux_small (Zpos (m1 * m2)) (e1 + e2) loc_Exact)
    as [-> | (m & e & -> & Hzero)]; try done.
  - rewrite Pos2Z.inj_mul. lia.
  - cbn [int cond_Zopp]. by rewrite Hzero.
Qed.






End RoundingUpper.

(** ** The resizer on short bases and on landscape icons *)

Lemma resized_icon_short_base icon base_height :
  0 <= base_height < 40 -> exists e, resized_icon icon base_height = inl e.
Proof.
  intros Hb. unfold resized_icon, IMAGE_HEIGHT_TO_ICON_HEIGHT_RATIO.
  destruct (int_truediv base_height 40) as (nh & Hnh & Hint); [lia | lia |].
  rewrite Z.div_small in Hint by lia. rewrite Hnh. cbn [bind_exn].
  destruct (Py.truediv (im_width icon) (im_height icon)) as [e|ar] eqn:Har;
    cbn [bind_exn]; [eauto|].
  assert (Hih : im_height icon <> 0).
  { intros H0. rewrite H0 in Har. unfold Py.truediv in Har. cbn in Har. done. }
  destruct (Py.int (Py.fmul nh ar)) as [e|nw]; cbn [bind_exn]; [eauto|].
  rewrite Hint. cbn [bind_exn].
  rewrite resize_other.
  - destruct (Py.as_c_int nw) as [e|nw']; cbn [bind_exn]; [eauto|].
    rewrite (as_c_int_fits 0) by lia. cbn [bind_exn].
    rewrite orb_true_r. eauto.
  - intros Heq. unfold im_height in Hih. rewrite Heq in Hih. done.
Qed.


(** X2.  On a base image less than 40 pixels high the resizer always
    raises, whatever the icon: the new height is [int(base_height / 40)],
    which is 0, and the library refuses it (or the aspect ratio divided
    by zero before).  It prints at most its one line and touches no
    file. *)
Theorem resize_icon_short_base icon base_height w :
  0 <= base_height < 40 ->
  (exists e, fst (_resize_icon icon base_height w) = inl e)
  /\ same_fs w (snd (_resize_icon icon base_height w)).
Proof.
  intros Hb. destruct (resize_icon_cases icon base_height w) as (Hfst & Hfs & _).
  split; [|done]. rewrite Hfst. by apply resized_icon_short_base.
Qed.

Lemma resize_icon_short_base_witness :
  0 <= 39 < 40
  /\ (exists e, fst (_resize_icon wide_icon 39 empty_world) = inl e)
  /\ same_fs empty_world (snd (_resize_icon wide_icon 39 empty_world)).
Proof.
  split; [lia|]. apply (resize_icon_short_base wide_icon 39 empty_world). lia.
Defined.



(** ** The resizer on narrow icons *)

Lemma resized_icon_narrow icon base_height :
  0 < im_width icon < 2 ^ 52 -> 0 < im_height icon < 2 ^ 53 ->
  0 < base_height < 2 ^ 31 ->
  2 * ((base_height + 1) * (im_width icon + 1)) <= 40 * im_height icon ->
  resized_icon icon base_height = inl (ValueError "height and width must be > 0").
Proof.
  intros Hiw Hih Hb Hnarrow. unfold resized_icon, IMAGE_HEIGHT_TO_ICON_HEIGHT_RATIO.
  destruct (truediv_pos_finite base_height 40)
    as (m1 & e1 & j1 & t1 & Hnh & Hj1 & He1 & Hjt1 & Hd1 & Hval1 & _); [lia | lia |].
  destruct (int_truediv base_height 40) as (nh & Hnh' & Hint); [lia | lia |].
  rewrite Hnh in Hnh'. injection Hnh' as <-.
  destruct (truediv_pos_finite (im_width icon) (im_height icon))
    as (m2 & e2 & j2 & t2 & Har & Hj2 & He2 & Hjt2 & Hd2 & Hval2 & _); [lia | lia |].
  rewrite Hnh, Har. cbn [bind_exn].
  assert (Hzero : Py.int (Py.fmul (S754_finite false m1 e1) (S754_finite false m2 e2))
                  = inr 0).
  { apply int_fmul_small; [lia | lia |].
    set (A := Zpos m1 * 2 ^ j1) in *. set (B := Zpos m2 * 2 ^ j2) in *.
    assert (P1 : 0 < 2 ^ t1) by (apply Z.pow_pos_nonneg; lia).
    assert (P2 : 0 < 2 ^ t2) by (apply Z.pow_pos_nonneg; lia).
    assert (Q1 : 0 < 2 ^ j1) by (apply Z.pow_pos_nonneg; lia).
    assert (Q2 : 0 < 2 ^ j2) by (apply Z.pow_pos_nonneg; lia).
    assert (S1 : 2 ^ t1 = 2 ^ (- e1) * 2 ^ j1)
      by (rewrite <- Z.pow_add_r by lia; f_equal; lia).
    assert (S2 : 2 ^ t2 = 2 ^ (- e2) * 2 ^ j2)
      by (rewrite <- Z.pow_add_r by lia; f_equal; lia).
    assert (R1 : 0 < 2 ^ (- e1)) by (apply Z.pow_pos_nonneg; lia).
    assert (R2 : 0 < 2 ^ (- e2)) by (apply Z.pow_pos_nonneg; lia).
    assert (G1 : 40 * A < (base_height + 1) * 2 ^ t1).
    { pose proof (Z.mul_div_le (base_height * 2 ^ t1) 40 ltac:(lia)). lia. }
    assert (G2 : im_height icon * B < (im_width icon + 1) * 2 ^ t2).
    { pose proof (Z.mul_div_le (im_width icon * 2 ^ t2) (im_height icon) ltac:(lia)).
      lia. }
    assert (HA : 0 < A) by (unfold A; lia).
    assert (HB : 0 < B) by (unfold B; lia).
    assert (G : 2 * (A * B) < 2 ^ t1 * 2 ^ t2).
    { assert (G3 : (40 * A) * (im_height icon * B)
                   < ((base_height + 1) * 2 ^ t1) * ((im_width icon + 1) * 2 ^ t2))
        by (apply Z.mul_lt_mono_nonneg; lia).
      replace ((40 * A) * (im_height icon * B))
        with ((40 * im_height icon) * (A * B)) in G3 by ring.
      replace (((base_height + 1) * 2 ^ t1) * ((im_width icon + 1) * 2 ^ t2))
        with (((base_height + 1) * (im_width icon + 1)) * (2 ^ t1 * 2 ^ t2))
        in G3 by ring.
      set (X := (base_height + 1) * (im_width icon + 1)) in *.
      set (Y := 40 * im_height icon) in *.
      set (T := 2 ^ t1 * 2 ^ t2) in *. set (AB := A * B) in *.
      assert (HT : 0 < T) by (unfold T; apply Z.mul_pos_pos; lia).
      assert (G4 : (2 * X) * T <= Y * T)
        by (apply Z.mul_le_mono_nonneg_r; lia).
      apply (Z.mul_lt_mono_pos_l Y); lia. }
    rewrite S1, S2 in G.
    assert (HJ : 0 < 2 ^ j1 * 2 ^ j2) by (apply Z.mul_pos_pos; lia).
    apply (Z.mul_lt_mono_pos_r (2 ^ j1 * 2 ^ j2)); [done|].
    unfold A, B in G. lia. }
  rewrite Hzero. cbn [bind_exn]. rewrite Hint. cbn [bind_exn].
  assert (Hq : 0 <= base_height / 40 < 2 ^ 31).
  { split; [apply Z.div_pos; lia|]. apply Z.div_lt_upper_bound; lia. }
  rewrite resize_other.
  - rewrite (as_c_int_fits 0), (as_c_int_fits (base_height / 40)) by lia. done.
  - intros Heq. unfold im_width in Hiw. rewrite Heq in Hiw. cbn in Hiw. lia.
Qed.

(** X17.  An icon much higher than wide is refused on any base image it
    would shrink to less than half a pixel of width on: the new width
    truncates to 0 and the library raises, so the resizer returns no
    icon, whatever the height of the base image gives for the new
    height.  The base height is that of a Pillow image, below
    [2 ^ 31]. *)
Theorem resize_icon_narrow icon base_height w :
  0 < im_width icon < 2 ^ 52 -> 0 < im_height icon < 2 ^ 53 ->
  0 < base_height < 2 ^ 31 ->
  2 * ((base_height + 1) * (im_width icon + 1)) <= 40 * im_height icon ->
  fst (_resize_icon icon base_height w)
  = inl (ValueError "height and width must be > 0")
  /\ same_fs w (snd (_resize_icon icon base_height w)).
Proof.
  intros Hiw Hih Hb Hnarrow.
  destruct (resize_icon_cases icon base_height w) as (Hfst & Hfs & _).
  split; [|done]. rewrite Hfst. by apply resized_icon_narrow.
Qed.

Lemma resize_icon_narrow_witness :
  (0 < im_width narrow_icon < 2 ^ 52 /\ 0 < im_height narrow_icon < 2 ^ 53
   /\ 0 < 800 < 2 ^ 31
   /\ 2 * ((800 + 1) * (im_width narrow_icon + 1)) <= 40 * im_height narrow_icon)
  /\ fst (_resize_icon narrow_icon 800 empty_world)
     = inl (ValueError "height and width must be > 0").
Proof.
  split; [cbn; lia|].
  apply (resize_icon_narrow narrow_icon 800 empty_world); cbn; lia.
Defined.

(** ** Opening an image *)

(** X1.  [_open_image] prints one line and changes no file.  Whenever it
    returns an image, the path holds an image file and the image is the
    stored one in mode RGBA, converted unless it was stored in that mode:
    it has the stored size, at least one pixel each way and no more
    pixels than the decompression bomb check lets through. *)
Theorem open_image_normalises path w :
  same_fs w (snd (_open_image path w))
  /\ stdout (snd (_open_image path w)) = stdout w ++ ["Opening image: " +:+ path]
  /\ forall im,
       fst (_open_image path w) = inr im ->
       im_mode im = Mode_RGBA
       /\ 1 <= im_width im /\ 1 <= im_height im
       /\ im_width im * im_height im <= 178956970
       /\ exists fmt stored,
            files w !! path = Some (ImageFile fmt stored)
            /\ im_size im = im_size stored
            /\ im_px im = if bool_decide (im_mode stored = Mode_RGBA)
                          then im_px stored
                          else Converted Mode_RGBA (im_px stored).
Proof.
  rewrite open_image_cases. cbn [fst snd printed stdout].
  split; [by repeat split|]. split; [done|].
  intros im Him.
  destruct (files w !! path) as [[fmt stored| |e]|] eqn:Hf; try done.
  pose proof (opened_inv _ _ _ Him) as (-> & Hmode & Hsize & Hw & Hh & Hpx).
  unfold im_width, im_height in *. rewrite Hsize.
  repeat (split; [done|]). exists fmt, stored.
  split; [done|]. split; [done|].
  unfold Image.convert. by destruct (bool_decide _).
Qed.

(** ** Where the icon lands *)

Lemma resized_icon_height icon base_height resized :
  0 <= base_height < 2 ^ 52 ->
  resized_icon icon base_height = inr resized ->
  im_height resized = base_height / 40 /\ 40 <= base_height.
Proof.
  intros Hb Hres. split.
  - revert Hres. unfold resized_icon, IMAGE_HEIGHT_TO_ICON_HEIGHT_RATIO.
    destruct (int_truediv base_height 40) as (nh & Hnh & Hint); [lia | lia |].
    rewrite Hnh. cbn [bind_exn].
    destruct (Py.truediv (im_width icon) (im_height icon)) as [e|ar];
      cbn [bind_exn]; [done|].
    destruct (Py.int (Py.fmul nh ar)) as [e|nw]; cbn [bind_exn]; [done|].
    rewrite Hint. cbn [bind_exn]. intros Hres. apply resize_size in Hres.
    unfold im_height. by rewrite Hres.
  - destruct (Z.le_gt_cases 40 base_height) as [|Hshort]; [done|].
    destruct (resized_icon_short_base icon base_height) as (e & He); [lia|].
    by rewrite He in Hres.
Qed.

(** X10.  Whatever icon the resizer returns is placed inside the base
    image from top to bottom: its top edge is below the top of the base
    image and its bottom edge is [padding] rows above the bottom, for
    every width of the base image.  Its right edge is [padding] columns
    left of the right edge, so it leaves the base image on the left
    exactly when it is wider than the base image less the padding. *)
Theorem resized_icon_position icon base_width base_height w resized :
  0 <= base_height < 2 ^ 52 ->
  fst (_resize_icon icon base_height w) = inr resized ->
  let padding := base_height / 100 in
  exists x y,
    _calculate_position (base_width, base_height) (im_size resized) = inr (x, y)
    /\ 0 < y /\ y + im_height resized + padding = base_height
    /\ x + im_width resized + padding = base_width
    /\ (x < 0 <-> base_width - padding < im_width resized).
Proof.
  intros Hb Hres padding. rewrite resize_icon_fst in Hres.
  fold (resized_icon icon base_height) in Hres.
  destruct (resized_icon_height icon base_height resized Hb Hres) as [Hh Htall].
  unfold im_height, im_width in *. destruct (im_size resized) as [rw rh].
  cbn [fst snd] in *. subst rh.
  rewrite calculate_position_value by done.
  eexists _, _. split; [reflexivity|]. fold padding.
  pose proof (Z.mul_div_le base_height 40 ltac:(lia)).
  pose proof (Z.mul_div_le base_height 100 ltac:(lia)).
  pose proof (Z.div_pos base_height 100 ltac:(lia) ltac:(lia)).
  unfold padding. repeat split; lia.
Qed.

Lemma resized_icon_position_witness :
  0 <= 79 < 2 ^ 52
  /\ exists resized,
       fst (_resize_icon wide_icon 79 empty_world) = inr resized
       /\ _calculate_position (800, 79) (im_size resized) = inr (781, 78).
Proof.
  split; [lia|].
  destruct (_resize_icon wide_icon 79 empty_world) as [[e|resized] w'] eqn:Hrun;
    [by vm_compute in Hrun|].
  exists resized. split; [reflexivity|].
  destruct (resized_icon_position wide_icon 800 79 empty_world resized)
    as (x & y & Hpos & _); [lia | by rewrite Hrun |].
  assert (Hsize : im_size resized = (19, 1)).
  { vm_compute in Hrun. by injection Hrun as <- _. }
  rewrite Hsize in *. vm_compute. reflexivity.
Defined.

(** ** The whole pipeline on good inputs *)





(** X5.  A base image less than 40 pixels high is never stamped: whatever
    the icon and the output path, the call returns [None] and no file is
    written. *)
Theorem add_icon_short_base base_path icon_name output_path w :
  (forall fmt stored,
     files w !! base_path = Some (ImageFile fmt stored) ->
     0 <= im_height stored < 40) ->
  exists w',
    _add_icon_to_single_image base_path icon_name output_path w = (inr None, w')
    /\ same_fs w w'.
Proof.
  intros Hshort. rewrite add_icon_run.
  destruct (single_image_body base_path icon_name output_path w) as [[e|res] w1] eqn:Hrun.
  - apply single_image_body_inv in Hrun as (Hf & Hd & Hr).
    eexists. split; [reflexivity|]. by repeat split.
  - exfalso. apply single_image_body_returns in Hrun
      as (fb & sb & fi & si & final & Hbase & _ & Hrender & _).
    unfold rendered in Hrender.
    destruct (opened "" sb) as [e|base] eqn:Hob; [done|]. cbn [bind_exn] in Hrender.
    destruct (opened "" si) as [e|icon] eqn:Hoi; [done|]. cbn [bind_exn] in Hrender.
    apply opened_inv in Hob as (_ & _ & Hsize & _).
    destruct (resized_icon_short_base icon (im_height base)) as (e & He).
    { unfold im_height. rewrite Hsize. by apply (Hshort fb). }
    by rewrite He in Hrender.
Qed.

Lemma add_icon_short_base_witness :
  (forall fmt stored,
     files tiny_world !! "tiny.png"%string = Some (ImageFile fmt stored) ->
     0 <= im_height stored < 40)
  /\ exists w',
       _add_icon_to_single_image "tiny.png" "red.png" None tiny_world = (inr None, w')
       /\ same_fs tiny_world w'.
Proof.
  assert (H : forall fmt stored,
     files tiny_world !! "tiny.png"%string = Some (ImageFile fmt stored) ->
     0 <= im_height stored < 40).
  { intros fmt stored. cbn [tiny_world files]. rewrite lookup_insert_eq.
    intros [= <- <-]. cbn. lia. }
  split; [exact H|].
  exact (add_icon_short_base "tiny.png" "red.png" None tiny_world H).
Defined.

(** ** What the compositor needs *)


(** ** What a run leaves behind *)

(** Every path a batch leaves differently holds a PNG image of the size
    of the base image. *)
Lemma main_loop_outputs base_path icons : forall total i w path,
  files (snd (main_loop base_path total i icons w)) !! path = files w !! path
  \/ exists fmt stored final,
       files w !! base_path = Some (ImageFile fmt stored)
       /\ files (snd (main_loop base_path total i icons w)) !! path
          = Some (ImageFile PNG final)
       /\ im_size final = im_size stored.
Proof.
  induction icons as [|icon icons IH]; intros total i w path; [by left|].
  rewrite main_loop_cons.
  set (wp := printed w _).
  destruct (add_icon_outcome base_path icon None wp) as (res & w1 & Hrun & _ & _ & Hres).
  rewrite Hrun. cbn [snd].
  destruct res as [p|].
  - destruct Hres as (-> & fmt & stored & final1 & Hstored & Hf & Hsize).
    cbn [files wp printed] in Hstored, Hf.
    set (out := choose_output_path None base_path icon) in *.
    destruct (IH total (S i) w1 path) as [Hsame | (fmt' & stored' & final & Hb & Hp & Hs)].
    + destruct (decide (out = path)) as [<- | Hne].
      * right. exists fmt, stored, final1. by rewrite Hsame, Hf, lookup_insert_eq.
      * left. by rewrite Hsame, Hf, lookup_insert_ne.
    + right. exists fmt, stored, final. split; [done|]. split; [done|].
      rewrite Hs. rewrite Hf in Hb.
      destruct (decide (out = base_path)) as [Heq | Hne].
      * rewrite Heq, lookup_insert_eq in Hb. by injection Hb as _ <-.
      * rewrite lookup_insert_ne in Hb by done. congruence.
  - cbn [files wp printed] in Hres.
    destruct (IH total (S i) w1 path) as [Hsame | (fmt' & stored' & final & Hb & Hp & Hs)].
    + left. congruence.
    + right. exists fmt', stored', final. rewrite <- Hres. done.
Qed.

(** X7.  Whatever its arguments, [main] only ever creates or replaces
    PNG files that have exactly the dimensions of the base image: every
    path is either left with the file it had, or holds a PNG image of the
    size of the image stored at the base path.  It never deletes a file
    and never writes anything when the base path holds no image. *)
Theorem main_writes_png_of_base_size base_path icon_name output_path w path :
  files (snd (main base_path icon_name output_path w)) !! path = files w !! path
  \/ exists fmt stored final,
       files w !! base_path = Some (ImageFile fmt stored)
       /\ files (snd (main base_path icon_name output_path w)) !! path
          = Some (ImageFile PNG final)
       /\ im_width final = im_width stored /\ im_height final = im_height stored.
Proof.
  unfold main. destruct (String.eqb _ _).
  - unfold bind, isdir, listdir.
    destruct (dirs w !! posixpath.join "icon" ["png"%string]) as [entries|] eqn:Hd.
    + rewrite bool_decide_eq_true_2 by eauto. cbn [negb]. rewrite Hd.
      destruct (List.filter _ entries) as [|icon icons]; [by left|].
      rewrite print_run.
      destruct (main_loop_outputs base_path (icon :: icons)
                  (List.length (icon :: icons)) 0%nat
                  {| files := files w; dirs := dirs w; refused := refused w;
                     stdout := stdout w ++ ["Found icons: "
                                 +:+ Str.join ", " (icon :: icons)] |} path)
        as [Hsame | (fmt & stored & final & Hb & Hp & Hs)].
      * by left.
      * right. exists fmt, stored, final. unfold im_width, im_height.
        by rewrite Hs.
    + rewrite bool_decide_eq_false_2 by (by intros [? ?]). by left.
  - unfold bind.
    destruct (add_icon_outcome base_path icon_name output_path w)
      as (res & w1 & -> & _ & _ & Hres). unfold ret. cbn [snd].
    destruct res as [p|]; [|left; by rewrite Hres].
    destruct Hres as (-> & fmt & stored & final & Hstored & Hf & Hsize).
    rewrite Hf.
    destruct (decide (choose_output_path output_path base_path icon_name = path))
      as [<- | Hne].
    + right. exists fmt, stored, final. rewrite lookup_insert_eq.
      unfold im_width, im_height. by rewrite Hsize.
    + left. by rewrite lookup_insert_ne.
Qed.

(** ** Files that cannot be read *)

(** X11.  When opening the base image raises, the pipeline stops there:
    the icon is not opened, the call prints the line of the first open
    and the report of what was raised, returns [None] and writes
    nothing.  The report is that of the [FileNotFoundError] clause for
    that exception and that of the general clause for every other. *)
Theorem add_icon_unreadable_base base_path icon_name output_path w e :
  fst (_open_image base_path w) = inl e ->
  _add_icon_to_single_image base_path icon_name output_path w
  = (inr None, printed w ["Opening image: " +:+ base_path; error_report e])
  /\ error_report e
     = if is_FileNotFoundError e
       then "Error: " +:+ exn_str e +:+ ". Please check file paths."
       else "An error occurred: " +:+ exn_str e.
Proof.
  intros Hopen. split; [|done]. rewrite add_icon_run. unfold single_image_body.
  unfold bind at 1. rewrite (surjective_pairing (_open_image base_path w)), Hopen.
  rewrite open_image_cases. cbn [snd].
  unfold printed. cbn [files dirs refused stdout]. by rewrite <- List.app_assoc.
Qed.

Lemma add_icon_unreadable_base_witness :
  fst (_open_image "missing.jpg" sample_world) = inl (FileNotFoundError "missing.jpg")
  /\ _add_icon_to_single_image "missing.jpg" "red.png" None sample_world
     = (inr None,
        printed sample_world
          ["Opening image: missing.jpg";
           "Error: [Errno 2] No such file or directory: 'missing.jpg'. "
           +:+ "Please check file paths."]%string).
Proof.
  assert (H : fst (_open_image "missing.jpg" sample_world)
              = inl (FileNotFoundError "missing.jpg")) by (by vm_compute).
  split; [exact H|].
  exact (proj1 (add_icon_unreadable_base "missing.jpg" "red.png" None sample_world _ H)).
Defined.

(** X12.  When the base image opens and opening the icon raises, the
    call prints the lines of the two opens and the report of what was
    raised, returns [None] and writes nothing: nothing is resized or
    composed before the icon is there. *)
Theorem add_icon_unreadable_icon base_path icon_name output_path w base_image e :
  fst (_open_image base_path w) = inr base_image ->
  fst (_open_image (icon_path icon_name) w) = inl e ->
  _add_icon_to_single_image base_path icon_name output_path w
  = (inr None,
     printed w ["Opening image: " +:+ base_path;
                "Opening image: " +:+ icon_path icon_name;
                error_report e]).
Proof.
  intros Hbase Hicon. rewrite add_icon_run. unfold single_image_body.
  fold (icon_path icon_name).
  unfold bind at 1. rewrite (surjective_pairing (_open_image base_path w)), Hbase.
  rewrite open_image_cases. cbn [snd].
  destruct (fs_only_open_image (icon_path icon_name) w
              (printed w ["Opening image: " +:+ base_path])) as [Hsame _];
    [by repeat split|].
  unfold bind at 1.
  rewrite (surjective_pairing (_open_image (icon_path icon_name) (printed w _))).
  rewrite <- Hsame, Hicon. rewrite open_image_cases. cbn [snd].
  unfold printed. cbn [files dirs refused stdout]. by rewrite <- !List.app_assoc.
Qed.

Lemma add_icon_unreadable_icon_witness :
  (fst (_open_image "a/b.jpg" sample_world)
   = inr (Image.convert photo Mode_RGBA)
   /\ fst (_open_image (icon_path "blue.png") sample_world)
      = inl (FileNotFoundError "icon/png/blue.png"))
  /\ stdout (snd (_add_icon_to_single_image "a/b.jpg" "blue.png" None sample_world))
     = ["Opening image: a/b.jpg"; "Opening image: icon/png/blue.png";
        "Error: [Errno 2] No such file or directory: 'icon/png/blue.png'. "
        +:+ "Please check file paths."]%string.
Proof.
  split; [by vm_compute|].
  rewrite (add_icon_unreadable_icon "a/b.jpg" "blue.png" None sample_world
             (Image.convert photo Mode_RGBA) (FileNotFoundError "icon/png/blue.png"));
    by vm_compute.
Defined.

(** ** Batch mode as repeated single mode *)

Lemma lower_length (s : string) : String.length (Str.lower s) = String.length s.
Proof. induction s as [|c s IH]; [done|]. cbn [Str.lower String.length]. by rewrite IH. Qed.

(** A name ending in [.png] does not lower to [all]. *)
Lemma png_name_not_all f :
  Str.endswith f ".png" = true -> String.eqb (Str.lower f) "all" = false.
Proof.
  unfold Str.endswith. intros [Hlen _]%andb_true_iff. apply Nat.leb_le in Hlen.
  cbn [String.length] in Hlen. apply String.eqb_neq. intros Heq.
  pose proof (lower_length f) as Hl. rewrite Heq in Hl. cbn [String.length] in Hl. lia.
Qed.

Lemma main_single_run base_path icon_name output_path w :
  String.eqb (Str.lower icon_name) "all" = false ->
  snd (main base_path icon_name output_path w)
  = snd (_add_icon_to_single_image base_path icon_name output_path w).
Proof.
  intros Hsingle. unfold main. rewrite Hsingle. unfold bind.
  by destruct (add_icon_outcome base_path icon_name output_path w)
    as (res & w1 & -> & _).
Qed.

Lemma main_loop_each base_path entries : forall total i w1 w2,
  same_fs w1 w2 ->
  same_fs (snd (main_loop base_path total i
                  (List.filter (fun f => Str.endswith f ".png") entries) w1))
          (main_each base_path
             (List.filter (fun f => Str.endswith f ".png") entries) w2).
Proof.
  induction entries as [|f entries IH]; intros total i w1 w2 Hfs; [done|].
  cbn [List.filter]. destruct (Str.endswith f ".png") eqn:Hpng; [|by apply IH].
  rewrite main_loop_cons. unfold main_each. cbn [foldl].
  rewrite main_single_run by (by apply png_name_not_all).
  apply IH. apply fs_only_add_icon.
  destruct Hfs as (? & ? & ?). by repeat split.
Qed.

(** X13.  In [all] mode with an icon directory, [main] leaves the file
    system exactly as calling [main] once for each entry ending in
    [.png], in the order of the listing and without an output path,
    leaves it: the batch is the single mode repeated, and what it prints
    between the icons changes nothing. *)
Theorem all_mode_is_repeated_single_mode base_path icon_name output_path w entries :
  Str.lower icon_name = "all"%string ->
  dirs w !! "icon/png"%string = Some entries ->
  same_fs (snd (main base_path icon_name output_path w))
          (main_each base_path
             (List.filter (fun f => Str.endswith f ".png") entries) w).
Proof.
  intros Hall Hdir. unfold main at 1. rewrite Hall. cbn [String.eqb Ascii.eqb Bool.eqb].
  change (posixpath.join "icon" ["png"%string]) with "icon/png"%string.
  unfold bind, isdir, listdir. rewrite Hdir.
  rewrite bool_decide_eq_true_2 by eauto. cbn [negb]. rewrite Hdir.
  destruct (List.filter _ entries) as [|icon icons] eqn:Hfilter.
  - rewrite print_run. by repeat split.
  - rewrite print_run. rewrite <- Hfilter. apply main_loop_each. by repeat split.
Qed.

Lemma all_mode_is_repeated_single_mode_witness :
  (Str.lower "ALL" = "all"%string
   /\ dirs sample_world !! "icon/png"%string
      = Some ["bad.png"; "notes.txt"; "red.png"]%string)
  /\ files (snd (main "a/b.jpg" "ALL" (Some "out.png"%string) sample_world))
     = files (snd (main "a/b.jpg" "red.png" None
                     (snd (main "a/b.jpg" "bad.png" None sample_world)))).
Proof.
  split; [by vm_compute|].
  exact (proj1 (all_mode_is_repeated_single_mode "a/b.jpg" "ALL"
                  (Some "out.png"%string) sample_world
                  ["bad.png"; "notes.txt"; "red.png"]%string
                  eq_refl eq_refl)).
Defined.

(** ** Where the derived path lies *)

Lemma app_inv_head_str (s t u : string) : s +:+ t = s +:+ u -> t = u.
Proof.
  induction s as [|c s IH]; [by rewrite !app_nil_l|].
  rewrite !app_cons. intros [= H]. auto.
Qed.

Lemma app_inv_tail_str (s : string) : forall t u : string,
  t +:+ s = u +:+ s -> t = u.
Proof.
  induction t as [|c t IH]; intros [|d u] Heq.
  - done.
  - apply (f_equal String.length) in Heq. rewrite app_nil_l, app_cons in Heq.
    cbn [String.length] in Heq. rewrite length_app in Heq. lia.
  - apply (f_equal String.length) in Heq. rewrite app_nil_l, app_cons in Heq.
    cbn [String.length] in Heq. rewrite length_app in Heq. lia.
  - rewrite !app_cons in Heq. injection Heq as -> Heq. f_equal. by apply IH.
Qed.

(** The derived path cut again by [os.path.split]: the directory of the
    base image and the new file name. *)
Lemma generate_output_path_split base_path icon_name :
  Str.occurs posixpath.sep icon_name = false ->
  posixpath.split (_generate_output_path base_path icon_name)
  = (fst (posixpath.split base_path),
     fst (posixpath.splitext (snd (posixpath.split base_path)))
     +:+ "_with_icon_" +:+ fst (posixpath.splitext icon_name)
     +:+ snd (posixpath.splitext (snd (posixpath.split base_path)))).
Proof.
  intros Hicon. unfold _generate_output_path.
  destruct (split_shape base_path) as [Hdir Hfile].
  destruct (posixpath.split base_path) as [dir file]. cbn [fst snd] in *.
  destruct (splitext_complete file Hfile) as [Hf _].
  destruct (splitext_complete icon_name Hicon) as [Hi _].
  destruct (posixpath.splitext file) as [name ext].
  destruct (posixpath.splitext icon_name) as [stem iext]. cbn [fst snd] in *.
  rewrite Hf, occurs_app in Hfile. apply orb_false_elim in Hfile as [Hname Hext].
  rewrite Hi, occurs_app in Hicon. apply orb_false_elim in Hicon as [Hstem _].
  apply split_join; [done|].
  rewrite !occurs_app, Hname, Hstem, Hext. reflexivity.
Qed.

(** X14.  For an icon name without slash, the derived output path lies in
    the directory of the base image, and it is never the path of the base
    image itself: a run without output path does not overwrite its
    input. *)
Theorem generate_output_path_beside_base base_path icon_name :
  Str.occurs posixpath.sep icon_name = false ->
  fst (posixpath.split (_generate_output_path base_path icon_name))
  = fst (posixpath.split base_path)
  /\ Str.occurs posixpath.sep
       (snd (posixpath.split (_generate_output_path base_path icon_name))) = false
  /\ _generate_output_path base_path icon_name <> base_path.
Proof.
  intros Hicon. pose proof (generate_output_path_split base_path icon_name Hicon) as Hs.
  split; [by rewrite Hs|]. split; [apply split_shape|].
  intros Heq. rewrite Heq in Hs.
  destruct (split_shape base_path) as [_ Hfile].
  destruct (splitext_complete _ Hfile) as [Hf _].
  apply (f_equal snd) in Hs. cbn [snd] in Hs. rewrite Hs in Hf at 1.
  apply (f_equal String.length) in Hf. rewrite !length_app in Hf.
  cbn [String.length] in Hf. lia.
Qed.

Lemma generate_output_path_beside_base_witness :
  Str.occurs posixpath.sep "red.png" = false
  /\ fst (posixpath.split (_generate_output_path "a//b.jpg" "red.png")) = "a"%string
  /\ _generate_output_path "a//b.jpg" "red.png" <> "a//b.jpg"%string.
Proof.
  split; [reflexivity|].
  destruct (generate_output_path_beside_base "a//b.jpg" "red.png" eq_refl)
    as (Hdir & _ & Hne).
  split; [|exact Hne]. rewrite Hdir. vm_compute. reflexivity.
Defined.

(** X15.  Two icon names without slash get the same derived output path
    exactly when they have the same name without extension: icons that
    differ in their extension only write to one file, and no other two
    icons do. *)
Theorem generate_output_path_collision base_path icon1 icon2 :
  Str.occurs posixpath.sep icon1 = false ->
  Str.occurs posixpath.sep icon2 = false ->
  _generate_output_path base_path icon1 = _generate_output_path base_path icon2
  <-> fst (posixpath.splitext icon1) = fst (posixpath.splitext icon2).
Proof.
  intros H1 H2. split.
  - intros Heq.
    pose proof (generate_output_path_split base_path icon1 H1) as Hs1.
    pose proof (generate_output_path_split base_path icon2 H2) as Hs2.
    rewrite Heq, Hs2 in Hs1. injection Hs1 as Hs1.
    apply app_inv_head_str in Hs1.
    apply (app_inv_head_str "_with_icon_") in Hs1.
    symmetry. by apply app_inv_tail_str in Hs1.
  - intros Hstem. unfold _generate_output_path.
    destruct (posixpath.split base_path) as [dir file].
    destruct (posixpath.splitext file) as [name ext].
    destruct (posixpath.splitext icon1) as [stem1 iext1].
    destruct (posixpath.splitext icon2) as [stem2 iext2].
    cbn [fst] in Hstem. by subst stem2.
Qed.

Lemma generate_output_path_collision_witness :
  (Str.occurs posixpath.sep "red.png" = false
   /\ Str.occurs posixpath.sep "red.svg.png" = false)
  /\ _generate_output_path "a/b.jpg" "red.png"
     <> _generate_output_path "a/b.jpg" "red.svg.png".
Proof.
  split; [by split|].
  intros Heq.
  apply (generate_output_path_collision "a/b.jpg" "red.png" "red.svg.png"
           eq_refl eq_refl) in Heq.
  vm_compute in Heq. congruence.
Defined.

(** ** An output path that cannot be written *)

(** The body of the pipeline when only the save fails. *)
Lemma single_image_body_refused base_path icon_name output_path w
    base_format stored_base icon_format stored_icon base icon resized position
    final err :
  let out := choose_output_path output_path base_path icon_name in
  files w !! base_path = Some (ImageFile base_format stored_base) ->
  files w !! icon_path icon_name = Some (ImageFile icon_format stored_icon) ->
  opened base_path stored_base = inr base ->
  opened (icon_path icon_name) stored_icon = inr icon ->
  resized_icon icon (im_height base) = inr resized ->
  _calculate_position (im_size base) (im_size resized) = inr position ->
  composited base resized position = inr final ->
  refused w !! out = Some err ->
  single_image_body base_path icon_name output_path w
  = (inl (exn_of_os_error err out),
     printed w ["Opening image: " +:+ base_path;
                "Opening image: " +:+ icon_path icon_name;
                resize_line resized;
                "Saving result to: " +:+ out]).
Proof.
  intros out Hbase Hicon Hob Hoi Hres Hpos Hfinal Hrefused.
  assert (Hout : Str.truthy out = true).
  { unfold out, choose_output_path. destruct output_path as [p|].
    - destruct (Str.truthy p) eqn:Hp; [done | apply generate_output_path_truthy].
    - apply generate_output_path_truthy. }
  unfold single_image_body. fold (icon_path icon_name).
  unfold bind at 1. rewrite open_image_cases, Hbase, Hob.
  unfold bind at 1. rewrite open_image_cases. cbn [printed files]. rewrite Hicon, Hoi.
  unfold bind at 1.
  destruct (resize_icon_cases icon (im_height base)
              (printed (printed w ["Opening image: " +:+ base_path])
                       ["Opening image: " +:+ icon_path icon_name]))
    as (Hfst & _ & Hsnd).
  rewrite (surjective_pairing (_resize_icon icon (im_height base) _)).
  rewrite Hfst, (Hsnd resized Hres), Hres.
  unfold bind at 1, lift. rewrite Hpos.
  unfold bind. fold out. rewrite composite_and_save_cases, Hfinal, Hout.
  cbn [printed refused files dirs stdout]. rewrite Hrefused.
  unfold printed. cbn [refused files dirs stdout].
  f_equal. f_equal. by rewrite <- !List.app_assoc.
Qed.

(** X16.  When both images can be read and composed but the operating
    system refuses the output path, the call goes as far as announcing
    the save, then reports the refusal and returns [None]: [Done.] is not
    printed and no file is written. *)
Theorem add_icon_unwritable_output base_path icon_name output_path w
    base_format stored_base icon_format stored_icon final err :
  let out := choose_output_path output_path base_path icon_name in
  files w !! base_path = Some (ImageFile base_format stored_base) ->
  files w !! icon_path icon_name = Some (ImageFile icon_format stored_icon) ->
  rendered stored_base stored_icon = inr final ->
  refused w !! out = Some err ->
  exists resized,
    _add_icon_to_single_image base_path icon_name output_path w
    = (inr None,
       printed w ["Opening image: " +:+ base_path;
                  "Opening image: " +:+ icon_path icon_name;
                  resize_line resized;
                  "Saving result to: " +:+ out;
                  error_report (exn_of_os_error err out)]).
Proof.
  intros out Hbase Hicon Hrender Hrefused. unfold rendered in Hrender.
  destruct (opened "" stored_base) as [e|base] eqn:Hob; [done|].
  cbn [bind_exn] in Hrender.
  destruct (opened "" stored_icon) as [e|icon] eqn:Hoi; [done|].
  cbn [bind_exn] in Hrender.
  destruct (resized_icon _ _) as [e|resized] eqn:Hres; [done|]. cbn [bind_exn] in Hrender.
  destruct (_calculate_position _ _) as [e|position] eqn:Hpos; [done|].
  cbn [bind_exn] in Hrender.
  exists resized. rewrite add_icon_run.
  rewrite (single_image_body_refused base_path icon_name output_path w
             base_format stored_base icon_format stored_icon base icon resized
             position final err Hbase Hicon
             (opened_path _ _ _ _ Hob) (opened_path _ _ _ _ Hoi)
             Hres Hpos Hrender Hrefused).
  unfold printed. cbn [files dirs refused stdout]. fold out.
  by rewrite <- !List.app_assoc.
Qed.

Lemma add_icon_unwritable_output_witness :
  (files locked_world !! "a/b.jpg"%string = Some (ImageFile JPEG photo)
   /\ files locked_world !! icon_path "red.png" = Some (ImageFile PNG wide_icon)
   /\ (exists final, rendered photo wide_icon = inr final)
   /\ refused locked_world !! choose_output_path None "a/b.jpg" "red.png"
      = Some EACCES)
  /\ stdout (snd (_add_icon_to_single_image "a/b.jpg" "red.png" None locked_world))
     = ["Opening image: a/b.jpg"; "Opening image: icon/png/red.png";
        "Resizing icon to 19x1"; "Saving result to: a/b_with_icon_red.jpg";
        "An error occurred: [Errno 13] Permission denied: 'a/b_with_icon_red.jpg'"
       ]%string.
Proof.
  split; [vm_compute; eauto 10|].
  destruct (rendered photo wide_icon) as [e|final] eqn:Hrender;
    [by vm_compute in Hrender|].
  destruct (add_icon_unwritable_output "a/b.jpg" "red.png" None locked_world
              JPEG photo PNG wide_icon final EACCES)
    as (resized & Hrun); [by vm_compute .. |].
  vm_compute. reflexivity.
Defined.

